(** * SIR epidemic simulation with a control signal: model and properties

    A shallow embedding of [train.py] (control signal, ODE right-hand side,
    simulation driver, plot range, summary, history store, run-and-save
    helper) and of the history and detail routes of [app.py].

    Numbers.  The Python code computes with IEEE 754 binary64 values.  The
    numeric functions are written once over an interface [PyNum] and read
    at two instances:
    - [Binary64]: Rocq's primitive floats, the arithmetic the program runs;
    - [Ideal]: the real numbers, the arithmetic the program approximates.

    Exceptions are values of [result]; a Python function that can raise
    returns [result A]. *)

From Stdlib Require Import ZArith List String Ascii Bool Lia Lra.
From Stdlib Require Import Floats Reals.
From Stdlib Require Import Sorted.
Import ListNotations.

#[global] Set Warnings "-inexact-float".

Local Close Scope R_scope.
Local Open Scope string_scope.
Local Open Scope list_scope.

(* ===================================================================== *)
(** ** Exceptions *)
(* ===================================================================== *)

Module Py.

Inductive exn : Set :=
| ValueError
| IndexError
| KeyError
| OverflowError
| TypeError
| EmptyDataError.

Inductive result (A : Type) : Type :=
| Ok (a : A)
| Raise (e : exn).

Arguments Ok {A} a.
Arguments Raise {A} e.

Definition bind {A B : Type} (c : result A) (k : A -> result B) : result B :=
  match c with
  | Ok a => k a
  | Raise e => Raise e
  end.


(** [l[i]] for a non-negative index. *)
Definition item {A : Type} (l : list A) (i : nat) : result A :=
  match nth_error l i with
  | Some a => Ok a
  | None => Raise IndexError
  end.

(** [l[-1]]. *)
Definition item_last {A : Type} (l : list A) : result A :=
  match l with
  | [] => Raise IndexError
  | a :: l' => Ok (last l' a)
  end.

End Py.

Export Py.

Declare Scope py_scope.
Delimit Scope py_scope with py.
Notation "x <- c ;; k" := (bind c (fun x => k))
  (at level 61, c at next level, right associativity) : py_scope.

(* ===================================================================== *)
(** ** The arithmetic the numeric code is written over *)
(* ===================================================================== *)

(** The operations and literals that [control_signal], [sir_ode] and
    [simulate_sir] use on numbers.  [lt a b] is Python's [a < b], [le a b]
    is [a <= b], [eqb a b] is [a == b]. *)
Class PyNum (F : Type) : Type := {
  lit_0 : F;            (* 0.0 *)
  lit_1 : F;            (* 1.0 *)
  lit_2 : F;            (* 2.0, and the integer 2 once promoted *)
  lit_half : F;         (* 0.5 *)
  lit_002 : F;          (* 0.02 *)
  np_pi : F;            (* np.pi *)
  add : F -> F -> F;
  sub : F -> F -> F;
  mul : F -> F -> F;
  div : F -> F -> F;
  neg : F -> F;
  lt : F -> F -> bool;
  le : F -> F -> bool;
  eqb : F -> F -> bool;
  isnan : F -> bool;
  np_sin : F -> F;
  np_exp : F -> F;
  of_int : Z -> F       (* float(n) for a Python int n *)
}.

Declare Scope num_scope.
Delimit Scope num_scope with num.
Infix "+" := add : num_scope.
Infix "-" := sub : num_scope.
Infix "*" := mul : num_scope.
Infix "/" := div : num_scope.
Notation "- x" := (neg x) : num_scope.

Module Signal.
Section Numeric.

Context {F : Type} {num : PyNum F}.
Local Open Scope py_scope.
Local Open Scope num_scope.

(** Python's builtin [max(a, b)]: the first argument unless the second is
    strictly greater. *)
Definition py_max (a b : F) : F := if lt a b then b else a.

(** [ndarray.max()]: numpy's [maximum] folded from the left; a NaN, once
    met, is kept.  An empty array raises [ValueError].  (Of two equal values
    the first is kept; they differ only when they are the two zeros, and
    which zero numpy returns then depends on the machine, so a property
    should not rest on the sign of a zero result.) *)
Definition np_max (t : list F) : result F :=
  match t with
  | [] => Raise ValueError
  | x :: xs =>
      Ok (fold_left (fun acc y => if le y acc || isnan acc then acc else y) xs x)
  end.

(** [ndarray.min()]. *)
Definition np_min (t : list F) : result F :=
  match t with
  | [] => Raise ValueError
  | x :: xs =>
      Ok (fold_left (fun acc y => if le acc y || isnan acc then acc else y) xs x)
  end.

(** [control_signal(t, signal_type, amp, freq, step_time)], train.py 20-48.
    [step_time = None] is the argument left at its default. *)
Definition control_signal (t : list F) (signal_type : string)
    (amp freq : F) (step_time : option F) : result (list F) :=
  if signal_type =? "step" then
    step_time <-
      match step_time with
      | None =>
          tmax <- np_max t ;;
          tmin <- np_min t ;;
          Ok ((tmax - tmin) / lit_2)
      | Some s => Ok s
      end ;;
    Ok (map (fun ti => if le step_time ti then lit_1 + amp else lit_1) t)
  else if signal_type =? "impulse" then
    center <-
      match step_time with
      | None =>
          tmax <- np_max t ;;
          tmin <- np_min t ;;
          Ok ((tmax + tmin) / lit_2)
      | Some s => Ok s
      end ;;
    tmax <- np_max t ;;
    tmin <- np_min t ;;
    let width := py_max ((tmax - tmin) * lit_002) lit_half in
    Ok (map (fun ti =>
               lit_1 + amp * np_exp (- lit_half *
                 (((ti - center) / width) * ((ti - center) / width)))) t)
  else if signal_type =? "ramp" then
    t0 <- np_min t ;;
    t1 <- np_max t ;;
    Ok (map (fun ti => lit_1 + amp * ((ti - t0) / (t1 - t0))) t)
  else if signal_type =? "sin" then
    tmin <- np_min t ;;
    tmax <- np_max t ;;
    Ok (map (fun ti =>
               lit_1 + amp * np_sin (lit_2 * np_pi * freq * (ti - tmin)
                                      / py_max lit_1 (tmax - tmin))) t)
  else
    Ok (map (fun _ => lit_1) t).

(** The state [y = (S, I, R)] and its derivative. *)
Definition state : Type := (F * F * F)%type.

(** [sir_ode(y, t, beta, gamma, N, signal_type, amp, freq, step_time)],
    train.py 54-63.  The control signal is evaluated on the one-element
    array [[t]] and its entry [0] is taken. *)
Definition sir_ode (y : state) (t : F) (beta gamma N : F)
    (signal_type : string) (amp freq : F) (step_time : option F)
    : result state :=
  let '(S_, I_, R_) := y in
  us <- control_signal [t] signal_type amp freq step_time ;;
  u <- item us 0 ;;
  let beta_eff := beta * u in
  let dSdt := - beta_eff * S_ * I_ / N in
  let dIdt := beta_eff * S_ * I_ / N - gamma * I_ in
  let dRdt := gamma * I_ in
  Ok (dSdt, dIdt, dRdt).


(** Replace the last entry of a list ([y[-1] = stop]). *)
Fixpoint set_last (y : list F) (stop : F) : list F :=
  match y with
  | [] => []
  | [_] => [stop]
  | a :: y' => a :: set_last y' stop
  end.

(** [np.linspace(start, stop, num)] with [endpoint=True], following numpy's
    implementation: the indices [0 .. num-1] scaled by [step = delta / div]
    (through [y / div * delta] when the step underflows to zero), shifted by
    [start], and the last entry overwritten by [stop]. *)
Definition linspace (start stop : F) (num : nat) : list F :=
  let div_ := (num - 1)%nat in
  let delta := stop - start in
  let y := map (fun i => of_int (Z.of_nat i)) (seq 0 num) in
  let y :=
    if (0 <? div_)%nat then
      let step := delta / of_int (Z.of_nat div_) in
      if eqb step lit_0
      then map (fun yi => (yi / of_int (Z.of_nat div_)) * delta) y
      else map (fun yi => yi * step) y
    else map (fun yi => yi * delta) y in
  let y := map (fun yi => yi + start) y in
  if (1 <? num)%nat then set_last y stop else y.

(** The default of [npoints] in [simulate_sir]. *)
Definition npoints_default : nat := 500.

(** A Python int handed to [np.linspace] as an end point: numpy holds it
    as a 64-bit integer ([int64], or [uint64] from 2^63 on) before it turns
    it into a float.  An int outside these types becomes an array of Python
    objects, on which [np.linspace] raises [UFuncTypeError], a
    [TypeError]. *)
Definition np_of_int (z : Z) : result F :=
  if ((z <? - 2 ^ 63) || (2 ^ 64 <=? z))%Z then Raise TypeError
  else Ok (of_int z).

Section Simulate.

(** [scipy.integrate.odeint(func, y0, t, args)]: the LSODA integrator is
    outside the repository; it is a parameter here, and the properties below
    state what they assume of it. *)
Variable odeint : (state -> F -> result state) -> state -> list F
                  -> result (list state).

(** The result of [simulate_sir]: [t, S, I, R, u]. *)
Definition trajectory : Type :=
  (list F * list F * list F * list F * list F)%type.

(** [simulate_sir(beta, gamma, N, I0, R0, days, npoints, signal_type, amp,
    freq, step_time)], train.py 66-80.  [npoints = None] is the argument
    left at its default.  [days] reaches [np.linspace] as a Python int
    ([np_of_int]). *)
Definition simulate_sir (beta gamma N I0 R0 : F) (days : Z)
    (npoints : option nat) (signal_type : string) (amp freq : F)
    (step_time : option F) : result trajectory :=
  let npoints := match npoints with Some n => n | None => npoints_default end in
  let S0 := py_max (N - I0 - R0) lit_0 in
  let y0 := (S0, I0, R0) in
  stop <- np_of_int days ;;
  let t := linspace (of_int 0) stop npoints in
  ret <- odeint (fun y ti =>
                   sir_ode y ti beta gamma N signal_type amp freq step_time)
                y0 t ;;
  let S := map (fun r : state => fst (fst r)) ret in
  let I := map (fun r : state => snd (fst r)) ret in
  let R := map (fun r : state => snd r) ret in
  u <- control_signal t signal_type amp freq step_time ;;
  Ok (t, S, I, R, u).


End Simulate.

(** An explicit Euler scheme with the interface of [odeint].  It stands in
    for the integrator when the model is run on concrete inputs. *)
Fixpoint euler_steps (func : state -> F -> result state) (y : state)
    (t0 : F) (ts : list F) : result (list state) :=
  match ts with
  | [] => Ok []
  | t1 :: ts' =>
      d <- func y t0 ;;
      let h := t1 - t0 in
      let '(S_, I_, R_) := y in
      let '(dS, dI, dR) := d in
      let y1 := (S_ + h * dS, I_ + h * dI, R_ + h * dR) in
      rest <- euler_steps func y1 t1 ts' ;;
      Ok (y1 :: rest)
  end.

Definition euler_odeint (func : state -> F -> result state) (y0 : state)
    (t : list F) : result (list state) :=
  match t with
  | [] => Raise ValueError
  | t0 :: ts => rest <- euler_steps func y0 t0 ts ;; Ok (y0 :: rest)
  end.

End Numeric.
End Signal.

Export Signal.

(* ===================================================================== *)
(** ** Binary64: the arithmetic the program runs *)
(* ===================================================================== *)

Module Binary64.

(** [np.sin] and [np.exp] come from the C library and are not primitives of
    Rocq's floats.  The model takes them as a component [Libm] and relies
    only on their values at zeros and at NaN, which IEEE 754 and C's Annex F
    fix: sin(+0) = +0, sin(-0) = -0, sin(NaN) = NaN, exp(+-0) = 1. *)
Class Libm : Type := {
  libm_sin : float -> float;
  libm_exp : float -> float;
  sin_pzero : libm_sin zero = zero;
  sin_nzero : libm_sin neg_zero = neg_zero;
  sin_nan : libm_sin nan = nan;
  exp_pzero : libm_exp zero = one;
  exp_nzero : libm_exp neg_zero = one
}.

(** [float(n)]: the integer rounded to the nearest binary64 value, ties to
    even.  (Python raises [OverflowError] from 2^1024 on; the integers of
    this program, day and sample counts, are far below.) *)
Definition float_of_int (z : Z) : float :=
  SF2Prim (binary_normalize prec emax z 0 false).

#[export] Instance float_num {M : Libm} : PyNum float := {|
  lit_0 := 0%float;
  lit_1 := 1%float;
  lit_2 := 2%float;
  lit_half := 0.5%float;
  lit_002 := 0.02%float;
  np_pi := 0x1.921fb54442d18p+1%float;      (* 3.141592653589793 *)
  add := PrimFloat.add;
  sub := PrimFloat.sub;
  mul := PrimFloat.mul;
  div := PrimFloat.div;
  neg := PrimFloat.opp;
  lt := PrimFloat.ltb;
  le := PrimFloat.leb;
  eqb := PrimFloat.eqb;
  isnan := PrimFloat.is_nan;
  np_sin := libm_sin;
  np_exp := libm_exp;
  of_int := float_of_int
|}.

(** A small stand-in for the C library, exact at the zeros and at NaN and a
    truncated power series elsewhere.  It is used only to run the model on
    concrete inputs whose evaluation meets [np.sin] or [np.exp] at those
    points, or not at all. *)
Definition series_sin (x : float) : float :=
  (x * (1 - x * x / 6 * (1 - x * x / 20 * (1 - x * x / 42))))%float.

Definition series_exp (x : float) : float :=
  (1 + x * (1 + x / 2 * (1 + x / 3 * (1 + x / 4))))%float.

Definition ref_libm : Libm := {|
  libm_sin := series_sin;
  libm_exp := series_exp;
  sin_pzero := eq_refl;
  sin_nzero := eq_refl;
  sin_nan := eq_refl;
  exp_pzero := eq_refl;
  exp_nzero := eq_refl
|}.

(** [x] is a real number: neither NaN nor an infinity. *)
Definition finite (x : float) : bool := PrimFloat.is_finite x.

(** The place of a value in the order that the comparisons decide: sign
    class first, then exponent, then mantissa (both negated below zero).
    The two zeros share a place; NaN has none (its entry is unused). *)
Definition key (x : spec_float) : Z * Z * Z :=
  match x with
  | S754_nan => (0, 0, 0)%Z
  | S754_infinity true => (-2, 0, 0)%Z
  | S754_infinity false => (2, 0, 0)%Z
  | S754_zero _ => (0, 0, 0)%Z
  | S754_finite true m e => (-1, - e, - Zpos m)%Z
  | S754_finite false m e => (1, e, Zpos m)%Z
  end.

Definition lexlt (a b : Z * Z * Z) : Prop :=
  let '(a1, a2, a3) := a in
  let '(b1, b2, b3) := b in
  (a1 < b1 \/ (a1 = b1 /\ (a2 < b2 \/ (a2 = b2 /\ a3 < b3))))%Z.

End Binary64.

(* ===================================================================== *)
(** ** Ideal: the real numbers *)
(* ===================================================================== *)

Module Ideal.

Definition Rltb (a b : R) : bool := if Rlt_dec a b then true else false.
Definition Rleb (a b : R) : bool := if Rle_dec a b then true else false.
Definition Reqb (a b : R) : bool := if Req_dec_T a b then true else false.

#[export] Instance real_num : PyNum R := {|
  lit_0 := 0%R;
  lit_1 := 1%R;
  lit_2 := 2%R;
  lit_half := (1 / 2)%R;
  lit_002 := (2 / 100)%R;
  np_pi := PI;
  add := Rplus;
  sub := Rminus;
  mul := Rmult;
  div := Rdiv;
  neg := Ropp;
  lt := Rltb;
  le := Rleb;
  eqb := Reqb;
  isnan := fun _ => false;
  np_sin := sin;
  np_exp := exp;
  of_int := IZR
|}.

End Ideal.

(* ===================================================================== *)
(** ** Summary generator ([generate_summary], train.py 231-294) *)
(* ===================================================================== *)

Module Summary.

Import Binary64.
Local Open Scope float_scope.
Local Open Scope py_scope.

(** A piece of the summary text: literal text, or a number together with
    the format the f-string renders it in.  The digits themselves are not
    modelled. *)
Inductive piece : Type :=
| Lit (s : string)       (* literal text *)
| Fmt4g (x : float)      (* f"{x:.4g}" *)
| Fmt2f (x : float)      (* f"{x:.2f}" *)
| Fmt1f (x : float)      (* f"{x:.1f}" *)
| Dec (n : Z).           (* f"{n}" for an int n *)

Definition line : Type := list piece.

(** ["sep".join(lines)]. *)
Fixpoint join (sep : piece) (lines : list line) : line :=
  match lines with
  | [] => []
  | [l] => l
  | l :: rest => l ++ sep :: join sep rest
  end.

(** [int(x)] of a float: truncation towards zero; NaN raises [ValueError],
    an infinity [OverflowError]. *)
Definition py_int (x : float) : result Z :=
  match Prim2SF x with
  | S754_nan => Raise ValueError
  | S754_infinity _ => Raise OverflowError
  | S754_zero _ => Ok 0%Z
  | S754_finite s m e =>
      let a := if (0 <=? e)%Z then (Zpos m * 2 ^ e)%Z
               else (Zpos m / 2 ^ (- e))%Z in
      Ok (if s then (- a)%Z else a)
  end.

(** [round(x)] of a float: the nearest integer, ties to even, with the same
    exceptions as [int]. *)
Definition py_round (x : float) : result Z :=
  match Prim2SF x with
  | S754_nan => Raise ValueError
  | S754_infinity _ => Raise OverflowError
  | S754_zero _ => Ok 0%Z
  | S754_finite s m e =>
      let a :=
        if (0 <=? e)%Z then (Zpos m * 2 ^ e)%Z
        else
          let k := (- e)%Z in
          let q := (Zpos m / 2 ^ k)%Z in
          let r := (Zpos m mod 2 ^ k)%Z in
          match (2 * r ?= 2 ^ k)%Z with
          | Lt => q
          | Gt => (q + 1)%Z
          | Eq => if Z.even q then q else (q + 1)%Z
          end in
      Ok (if s then (- a)%Z else a)
  end.

(** [np.argmax] on an array without NaN: the index of the first maximum,
    found by a left-to-right scan that moves only on a strictly greater
    entry. *)
Fixpoint argmax_from (best : float) (besti i : nat) (l : list float) : nat :=
  match l with
  | [] => besti
  | x :: l' =>
      if best <? x then argmax_from x i (S i) l'
      else argmax_from best besti (S i) l'
  end.

Definition np_argmax (l : list float) : result nat :=
  match l with
  | [] => Raise ValueError
  | x :: l' => Ok (argmax_from x 0 1 l')
  end.

(** [np.nanargmax]: NaN entries are replaced by -inf before [argmax]; an
    empty or all-NaN array raises [ValueError]. *)
Definition replace_nan (l : list float) : list float :=
  map (fun x => if is_nan x then neg_infinity else x) l.

Definition np_nanargmax (l : list float) : result nat :=
  match l with
  | [] => Raise ValueError
  | _ => if forallb is_nan l then Raise ValueError
         else np_argmax (replace_nan l)
  end.

(** [np.nanmean]: NaN entries count as absent; NaN when none is left.
    (numpy adds pairwise; the sum here is taken from the left, which can
    differ in the last bits.  The value is only rendered with two
    decimals.) *)
Definition np_nanmean (u : list float) : float :=
  let kept := filter (fun x => negb (is_nan x)) u in
  fold_left PrimFloat.add kept 0 / float_of_int (Z.of_nat (List.length kept)).

(** [np.nanmax]: [fmax] folded from the left; an empty array raises
    [ValueError], an all-NaN one gives NaN. *)
Definition fmax (a b : float) : float :=
  if (b <=? a) || is_nan b then a else b.

Definition np_nanmax (u : list float) : result float :=
  match u with
  | [] => Raise ValueError
  | x :: xs => Ok (fold_left fmax xs x)
  end.

Record stats : Type := {
  peak_I : float;
  peak_day : float;
  final_S : float;
  final_I : float;
  final_R : float
}.

(** The fixed sentences of the narrative. *)
Definition interp_fast : line :=
  [Lit "Interpretasi: R₀ > 1 menunjukkan penyebaran yang cepat; wabah kemungkinan besar berkembang pesat tanpa intervensi."].
Definition interp_moderate : line :=
  [Lit "Interpretasi: Penyebaran moderat; puncak infeksi lebih lambat dan lebih rendah."].
Definition interp_declining : line :=
  [Lit "Interpretasi: R₀ ≤ 1 menunjukkan infeksi cenderung menurun dan tidak menyebabkan wabah besar."].
Definition no_signal : line :=
  [Lit "Tidak ada sinyal kontrol: β konstan sepanjang simulasi (steady state)."].
Definition advice_intervene : line :=
  [Lit "Saran: Pertimbangkan intervensi (reduksi kontak, terapi, atau pengobatan) untuk menurunkan β."].
Definition advice_observe : line :=
  [Lit "Saran: Kondisi relatif terkendali; ajukan pengamatan lanjutan untuk memastikan tren menurun."].

(** [R0_basic = beta / gamma if gamma != 0 else float("inf")]. *)
Definition R0_basic (beta gamma : float) : float :=
  if negb (gamma =? 0) then beta / gamma else infinity.

(** The statistics block, train.py 237-242. *)
Definition basic_stats (t S I R : list float) : result stats :=
  peak_idx <- np_nanargmax I ;;
  peak_I <- item I peak_idx ;;
  peak_day <- item t peak_idx ;;
  final_S <- item_last S ;;
  final_I <- item_last I ;;
  final_R <- item_last R ;;
  Ok {| peak_I := peak_I; peak_day := peak_day;
        final_S := final_S; final_I := final_I; final_R := final_R |}.

(** The list [lines] built by train.py 244-289. *)
Definition summary_lines (beta gamma N I0 R0 : float) (days : Z)
    (st : stats) (u : list float) (signal_type : string)
    : result (list line) :=
  let R0_basic := R0_basic beta gamma in
  let l1 := [Lit "Model: SIR. Parameter: β="; Fmt4g beta; Lit ", γ=";
             Fmt4g gamma; Lit ", R₀ (β/γ) ≈ "; Fmt2f R0_basic; Lit "."] in
  n <- py_int N ;;
  i0 <- py_int I0 ;;
  r0 <- py_int R0 ;;
  let l2 := [Lit "Populasi total N="; Dec n; Lit ", kondisi awal I₀=";
             Dec i0; Lit ", R₀="; Dec r0; Lit "."] in
  p <- py_round (peak_I st) ;;
  let l3 := [Lit "Hasil utama: puncak jumlah terinfeksi ≈ "; Dec p;
             Lit " individu pada hari ke-"; Fmt1f (peak_day st); Lit "."] in
  fs <- py_round (final_S st) ;;
  fi <- py_round (final_I st) ;;
  fr <- py_round (final_R st) ;;
  let l4 := [Lit "Pada akhir simulasi (t="; Dec days; Lit " hari): S=";
             Dec fs; Lit ", I="; Dec fi; Lit ", R="; Dec fr; Lit "."] in
  let l5 :=
    if 1.5 <? R0_basic then interp_fast
    else if (1.0 <? R0_basic) && (R0_basic <=? 1.5) then interp_moderate
    else interp_declining in
  l6 <-
    (if negb (signal_type =? "")%string && negb (signal_type =? "none")%string
     then
       let mean_u := np_nanmean u in
       max_u <- np_nanmax u ;;
       if 1.05 <? max_u then
         Ok [Lit "Efek sinyal ("; Lit signal_type;
             Lit "): sinyal meningkatkan β sementara (max factor ";
             Fmt2f max_u; Lit "), mempengaruhi kurva I(t)."]
       else
         Ok [Lit "Efek sinyal ("; Lit signal_type;
             Lit "): perubahan β relatif kecil (rata-rata faktor ";
             Fmt2f mean_u; Lit ")."]
     else Ok no_signal) ;;
  let l7 := if 1.5 <? R0_basic then advice_intervene else advice_observe in
  Ok [l1; l2; l3; l4; l5; l6; l7].

(** [generate_summary(beta, gamma, N, I0, R0, days, t, S, I, R, u,
    signal_type)]: the text [" ".join(lines)] and the statistics. *)
Definition generate_summary (beta gamma N I0 R0 : float) (days : Z)
    (t S I R u : list float) (signal_type : string)
    : result (line * stats) :=
  st <- basic_stats t S I R ;;
  lines <- summary_lines beta gamma N I0 R0 days st u signal_type ;;
  Ok (join (Lit " ") lines, st).

(** A run as the data model has it: a non-empty trajectory whose series
    have one length and hold real numbers, a control value per sample, and
    finite [N], [I0], [R0]. *)
Definition valid_run (N I0 R0 : float) (t S I R u : list float) : bool :=
  negb (List.length t =? 0)%nat
  && (List.length S =? List.length t)%nat
  && (List.length I =? List.length t)%nat
  && (List.length R =? List.length t)%nat
  && (List.length u =? List.length t)%nat
  && forallb finite S && forallb finite I && forallb finite R
  && finite N && finite I0 && finite R0.

(** No entry of the array is NaN. *)
Definition no_nan (l : list float) : Prop :=
  Forall (fun x => is_nan x = false) l.

End Summary.

(* ===================================================================== *)
(** ** History store (train.py 154-225) and history route (app.py 60-84) *)
(* ===================================================================== *)

Module History.

Import Binary64.
Local Open Scope py_scope.

(** A value held in a DataFrame cell or in a record dictionary. *)
Inductive cell : Type :=
| CStr (s : string)
| CFloat (x : float)
| CInt (z : Z)
| CNone.

(** The text of one CSV field.  A number's text is kept as the number it
    spells: pandas writes a float with [repr] and an int in decimal, and
    reads both back as numbers.  Text that itself spells a number or a
    truth value is outside this model: [FText] stands for text that pandas
    leaves as text or takes as a missing value ([Store.plain_text],
    [na_values]). *)
Inductive field : Type :=
| FText (s : string)
| FFloat (x : float)
| FInt (z : Z).

Record DataFrame : Type := {
  columns : list string;
  rows : list (list cell)
}.

(** The content of [data/history.csv]: no bytes at all, or a header line
    followed by data lines. *)
Inductive file : Type :=
| Blank
| Table (header : list string) (body : list (list field)).

(** The state of the file system as far as the store sees it: [None] when
    [HISTORY_FILE] does not exist. *)
Definition fs : Type := option file.

Definition canonical_columns : list string :=
  ["id"; "timestamp"; "beta"; "gamma"; "N"; "I0"; "R0"; "days"; "signal";
   "amp"; "freq"; "step_time"; "peak_I"; "peak_day"; "final_S"; "final_I";
   "final_R"; "summary"].

(** Bytes of a line: the fields, the commas between them, the newline. *)
Definition line_bytes (widths : list nat) : nat :=
  fold_right Nat.add 0%nat widths + (List.length widths - 1) + 1.

(** Width of a field's text; for a number a lower bound (its digits are not
    modelled).  [_ensure_history] looks at the size only together with a
    line count of at most one, that is, when there is no data line. *)
Definition field_bytes (f : field) : nat :=
  match f with
  | FText s => String.length s
  | FFloat _ => 3
  | FInt _ => 1
  end.

(** [os.stat(HISTORY_FILE).st_size]. *)
Definition st_size (c : file) : nat :=
  match c with
  | Blank => 0
  | Table h body =>
      line_bytes (map String.length h)
      + fold_right Nat.add 0%nat
          (map (fun l => line_bytes (map field_bytes l)) body)
  end.

(** [len(f.readlines())]. *)
Definition n_lines (c : file) : nat :=
  match c with
  | Blank => 0
  | Table _ body => S (List.length body)
  end.

(** [pd.DataFrame(columns=[...])]: the empty frame with the 18 columns. *)
Definition empty_frame : DataFrame :=
  {| columns := canonical_columns; rows := [] |}.

(** [df.empty]: some axis has length zero. *)
Definition empty (df : DataFrame) : bool :=
  match columns df, rows df with
  | [], _ => true
  | _, [] => true
  | _, _ => false
  end.

(** [df.to_csv(HISTORY_FILE, index=False)]: missing values ([None], NaN) are
    written as empty text. *)
Definition write_cell (c : cell) : field :=
  match c with
  | CStr s => FText s
  | CFloat x => if is_nan x then FText "" else FFloat x
  | CInt z => FInt z
  | CNone => FText ""
  end.

Definition to_csv (df : DataFrame) : file :=
  Table (columns df) (map (map write_cell) (rows df)).

(** The texts [pd.read_csv] reads as a missing value (its default
    [na_values], with [keep_default_na=True]). *)
Definition na_values : list string :=
  [""; "#N/A"; "#N/A N/A"; "#NA"; "-1.#IND"; "-1.#QNAN"; "-NaN"; "-nan";
   "1.#IND"; "1.#QNAN"; "<NA>"; "N/A"; "NA"; "NULL"; "NaN"; "None"; "n/a";
   "nan"; "null"].

Definition read_field (f : field) : cell :=
  match f with
  | FText s => if existsb (String.eqb s) na_values then CFloat nan else CStr s
  | FFloat x => CFloat x
  | FInt z => CInt z
  end.

(** [pd.read_csv(HISTORY_FILE)]: a file without a header line raises
    [EmptyDataError].  The file is read line by line and field by field,
    which is what pandas does on a file whose lines have one field per
    column and whose columns each hold one kind of value
    ([Store.typed_body] for the canonical header).  Outside such files
    pandas does more, none of which is modelled: it types each column as a
    whole (an integer column with a missing value is read as floats), pads
    short lines, rejects or re-indexes long ones and skips blank ones.  The
    properties of the store that read data lines assume such a file. *)
Definition read_csv (c : file) : result DataFrame :=
  match c with
  | Blank => Raise EmptyDataError
  | Table [] _ => Raise EmptyDataError
  | Table h body => Ok {| columns := h; rows := map (map read_field) body |}
  end.

(** A value after one trip through the file: written by [to_csv], read
    back by [read_csv]. *)
Definition reload (c : cell) : cell := read_field (write_cell c).

(** [_ensure_history()], train.py 154-173. *)
Definition _ensure_history (f : fs) : fs :=
  match f with
  | None => Some (to_csv empty_frame)
  | Some c =>
      if (st_size c <? 200)%nat then
        if (n_lines c <=? 1)%nat then Some (to_csv empty_frame)
        else Some c
      else Some c
  end.

(** A record dictionary, keys in insertion order. *)
Definition record : Type := list (string * cell).

Fixpoint lookup (k : string) (r : record) : option cell :=
  match r with
  | [] => None
  | (k', v) :: r' => if (k =? k')%string then Some v else lookup k r'
  end.

(** [pd.concat([df, pd.DataFrame([record])], ignore_index=True)]: the
    columns of [df] followed by the new keys; a cell with no value is NaN. *)
Definition concat_record (df : DataFrame) (r : record) : DataFrame :=
  let cols :=
    columns df
    ++ filter (fun k => negb (existsb (String.eqb k) (columns df)))
              (map fst r) in
  let align (d : record) :=
    map (fun k => match lookup k d with Some c => c | None => CFloat nan end)
        cols in
  {| columns := cols;
     rows := map (fun row => align (combine (columns df) row)) (rows df)
             ++ [align r] |}.

(** The dictionary [record] built by [save_history_entry], train.py
    185-204. *)
Definition entry_record (entry_id ts : string)
    (beta gamma N I0 R0 : float) (days : Z) (signal_type : string)
    (amp freq : float) (step_time : option float)
    (summary_text : option string)
    (peak_I peak_day final_S final_I final_R : option float) : record :=
  let opt (o : option float) :=
    match o with Some x => CFloat x | None => CNone end in
  [("id", CStr entry_id);
   ("timestamp", CStr ts);
   ("beta", CFloat beta);
   ("gamma", CFloat gamma);
   ("N", CFloat N);
   ("I0", CFloat I0);
   ("R0", CFloat R0);
   ("days", CInt days);
   ("signal", CStr signal_type);
   ("amp", CFloat amp);
   ("freq", CFloat freq);
   ("step_time", match step_time with Some x => CFloat x | None => CStr "" end);
   ("peak_I", opt peak_I);
   ("peak_day", opt peak_day);
   ("final_S", opt final_S);
   ("final_I", opt final_I);
   ("final_R", opt final_R);
   ("summary", match summary_text with Some s => CStr s | None => CStr "" end)].

(** [save_history_entry(...)], train.py 176-207.  The fresh identifier
    [str(uuid.uuid4())] and the clock reading [datetime.utcnow().isoformat()]
    come from the environment and are arguments here.  The result is the new
    file system state and the returned id. *)
Definition save_history_entry (f : fs) (entry_id ts : string)
    (beta gamma N I0 R0 : float) (days : Z) (signal_type : string)
    (amp freq : float) (step_time : option float)
    (summary_text : option string)
    (peak_I peak_day final_S final_I final_R : option float)
    : fs * result string :=
  let f := _ensure_history f in
  match f with
  | None => (f, Raise EmptyDataError)
  | Some c =>
      match read_csv c with
      | Raise e => (f, Raise e)
      | Ok df =>
          let record :=
            entry_record entry_id ts beta gamma N I0 R0 days signal_type
                         amp freq step_time summary_text
                         peak_I peak_day final_S final_I final_R in
          let df := concat_record df record in
          (Some (to_csv df), Ok entry_id)
      end
  end.

(** [load_history_df()], train.py 210-217. *)
Definition load_history_df (f : fs) : fs * result DataFrame :=
  let f := _ensure_history f in
  match f with
  | None => (f, Raise EmptyDataError)
  | Some c =>
      match read_csv c with
      | Raise e => (f, Raise e)
      | Ok df => if empty df then (f, Ok empty_frame) else (f, Ok df)
      end
  end.

(** Position of a column, [KeyError] when absent. *)
Fixpoint column_index (k : string) (cols : list string) : result nat :=
  match cols with
  | [] => Raise KeyError
  | c :: cols' =>
      if (k =? c)%string then Ok 0%nat
      else i <- column_index k cols' ;; Ok (S i)
  end.

(** [cell == entry_id] for a string [entry_id]. *)
Definition cell_is (entry_id : string) (c : cell) : bool :=
  match c with
  | CStr s => (s =? entry_id)%string
  | _ => false
  end.

(** [get_history_entry(entry_id)], train.py 220-225: [None] when no row has
    the id, else the first such row as a dictionary. *)
Definition get_history_entry (f : fs) (entry_id : string)
    : fs * result (option record) :=
  let '(f, r) := load_history_df f in
  (f,
   df <- r ;;
   i <- column_index "id" (columns df) ;;
   let row :=
     filter (fun row => cell_is entry_id (nth i row (CFloat nan))) (rows df) in
   match row with
   | [] => Ok None
   | first :: _ => Ok (Some (combine (columns df) first))
   end).

(** [pd.isna] of a cell. *)
Definition isna (c : cell) : bool :=
  match c with
  | CFloat x => is_nan x
  | CNone => true
  | _ => false
  end.

Section Route.

(** [pd.to_datetime(ts).strftime("%Y-%m-%d %H:%M:%S")]; the date parser is
    outside the repository and a parameter here. *)
Variable strftime : string -> result string.

(** Insertion of a row into a list sorted by descending timestamp text.
    The row goes before the rows of the same timestamp, so that rows of
    equal timestamps, inserted from the last line of the file to the first,
    keep the order of the file.  ([sort_values] keeps that order as long as
    numpy's sort is stable, which it is on short columns; no property below
    depends on the order among equal timestamps.) *)
Fixpoint insert_desc (key : string) (row : record)
    (sorted : list (string * record)) : list (string * record) :=
  match sorted with
  | [] => [(key, row)]
  | (k, r) :: rest =>
      match String.compare key k with
      | Lt => (k, r) :: insert_desc key row rest
      | _ => (key, row) :: sorted
      end
  end.

(** One row for the template: its timestamp text and the dictionary with
    the added key [timestamp_readable].  A timestamp that is not text raises
    [TypeError] (the store writes text only). *)
Definition keyed_row (cols : list string) (row : list cell)
    : result (string * record) :=
  let d := combine cols row in
  match lookup "timestamp" d with
  | Some (CStr ts) =>
      readable <- strftime ts ;;
      Ok (ts, d ++ [("timestamp_readable", CStr readable)])
  | _ => Raise TypeError
  end.

Fixpoint keyed_rows (cols : list string) (rs : list (list cell))
    : result (list (string * record)) :=
  match rs with
  | [] => Ok []
  | row :: rs' =>
      kr <- keyed_row cols row ;;
      rest <- keyed_rows cols rs' ;;
      Ok (kr :: rest)
  end.

(** The route [history()], app.py 60-84: the [table] handed to the
    template, most recent first. *)
Definition history (f : fs) : fs * result (list record) :=
  let '(f, r) := load_history_df f in
  (f,
   df <- r ;;
   if negb (existsb (String.eqb "timestamp") (columns df)) || empty df then
     Ok []
   else
     i <- column_index "timestamp" (columns df) ;;
     let kept := filter (fun row => negb (isna (nth i row (CFloat nan))))
                        (rows df) in
     match kept with
     | [] => Ok []
     | _ =>
         krs <- keyed_rows (columns df) kept ;;
         Ok (map snd (fold_right (fun kr acc => insert_desc (fst kr) (snd kr) acc)
                                 [] krs))
     end).

End Route.

End History.

(* ===================================================================== *)
(** ** Plot range and the run-and-save helper (train.py 86-148, 300-311) *)
(* ===================================================================== *)

Module Run.

Import Binary64 Summary History.
Local Open Scope py_scope.
Local Open Scope float_scope.

Section Machine.

Context {M : Libm}.

(** What [plot_sir] computes before it hands the series to Plotly: the
    y-range of the control panel, [[max(0.0, u.min()*0.95), u.max()*1.05]],
    and [int(N)] for the title.  The figure itself (traces, layout, HTML) is
    Plotly's and is not modelled; the range stands for it. *)
Definition plot_sir (u : list float) (N : float) : result (float * float) :=
  umin <- np_min u ;;
  umax <- np_max u ;;
  let range := (py_max 0.0 (umin * 0.95), umax * 1.05) in
  _ <- py_int N ;;
  Ok range.

(** The dictionary returned by [run_simulation_and_save]. *)
Record run_result : Type := {
  run_id : string;
  run_trajectory : trajectory (F := float);
  run_summary : string;
  run_plot : float * float;
  run_stats : stats
}.

(** [scipy.integrate.odeint], as in [simulate_sir]. *)
Variable odeint : (state (F := float) -> float -> result (state (F := float)))
                  -> state (F := float) -> list float
                  -> result (list (state (F := float))).

(** The text an f-string and [" ".join] make of the pieces of the summary;
    number formatting is Python's and a parameter here. *)
Variable render : line -> string.

(** [run_simulation_and_save(...)], train.py 300-311.  As in
    [save_history_entry], the fresh id and the clock reading are arguments;
    the result is the new file system state and the returned dictionary. *)
Definition run_simulation_and_save (f : fs) (entry_id ts : string)
    (beta gamma N I0 R0 : float) (days : Z) (signal_type : string)
    (amp freq : float) (step_time : option float) (npoints : option nat)
    : fs * result run_result :=
  match simulate_sir odeint beta gamma N I0 R0 days npoints signal_type
                     amp freq step_time with
  | Raise e => (f, Raise e)
  | Ok (t, S_, I_, R_, u) =>
      match generate_summary beta gamma N I0 R0 days t S_ I_ R_ u
                             signal_type with
      | Raise e => (f, Raise e)
      | Ok (summary_text, stats) =>
          let '(f, saved) :=
            save_history_entry f entry_id ts beta gamma N I0 R0 days
              signal_type amp freq step_time (Some (render summary_text))
              (Some (peak_I stats)) (Some (peak_day stats))
              (Some (final_S stats)) (Some (final_I stats))
              (Some (final_R stats)) in
          (f,
           entry_id <- saved ;;
           plot_html <- plot_sir u N ;;
           Ok {| run_id := entry_id;
                 run_trajectory := (t, S_, I_, R_, u);
                 run_summary := render summary_text;
                 run_plot := plot_html;
                 run_stats := stats |})
      end
  end.

End Machine.

End Run.

(* ===================================================================== *)
(** ** Detail route (app.py 90-137): the stored parameters *)
(* ===================================================================== *)

Module App.

Import Binary64 Summary History.
Local Open Scope py_scope.

(** [float(c)] of a cell: a number is itself, text raises [ValueError]
    (text that spells a number is outside the model of the store), [None]
    raises [TypeError]. *)
Definition py_float (c : cell) : result float :=
  match c with
  | CFloat x => Ok x
  | CInt z => Ok (float_of_int z)
  | CStr _ => Raise ValueError
  | CNone => Raise TypeError
  end.

(** [int(c)] of a cell. *)
Definition py_int_cell (c : cell) : result Z :=
  match c with
  | CFloat x => py_int x
  | CInt z => Ok z
  | CStr _ => Raise ValueError
  | CNone => Raise TypeError
  end.

(** [entry[k]]. *)
Definition getitem (k : string) (entry : record) : result cell :=
  match lookup k entry with
  | Some c => Ok c
  | None => Raise KeyError
  end.

(** [entry.get(k, default)]. *)
Definition get (k : string) (default : cell) (entry : record) : cell :=
  match lookup k entry with
  | Some c => c
  | None => default
  end.

(** [c != ""]: only the empty text equals the empty text. *)
Definition ne_empty (c : cell) : bool :=
  match c with
  | CStr s => negb (s =? "")%string
  | _ => true
  end.

(** The arguments [history_detail] hands to [simulate_sir]. *)
Record detail_args : Type := {
  d_beta : float;
  d_gamma : float;
  d_N : float;
  d_I0 : float;
  d_R0 : float;
  d_days : Z;
  d_signal : cell;
  d_amp : float;
  d_freq : float;
  d_step_time : option float
}.

(** The parameter block of [history_detail], app.py 98-109. *)
Definition detail_params (entry : record) : result detail_args :=
  beta <- (c <- getitem "beta" entry ;; py_float c) ;;
  gamma <- (c <- getitem "gamma" entry ;; py_float c) ;;
  N <- (c <- getitem "N" entry ;; py_float c) ;;
  I0 <- (c <- getitem "I0" entry ;; py_float c) ;;
  R0 <- (c <- getitem "R0" entry ;; py_float c) ;;
  days <- (c <- getitem "days" entry ;; py_int_cell c) ;;
  let signal := get "signal" (CStr "none") entry in
  amp <- (if ne_empty (get "amp" (CStr "") entry)
          then py_float (get "amp" (CFloat 0.5) entry)
          else Ok 0.5%float) ;;
  freq <- (if ne_empty (get "freq" (CStr "") entry)
           then py_float (get "freq" (CFloat 1.0) entry)
           else Ok 1.0%float) ;;
  step_time <- (if ne_empty (get "step_time" (CStr "") entry)
                then x <- py_float (get "step_time" CNone entry) ;;
                     Ok (Some x)
                else Ok None) ;;
  Ok {| d_beta := beta; d_gamma := gamma; d_N := N; d_I0 := I0; d_R0 := R0;
        d_days := days; d_signal := signal; d_amp := amp; d_freq := freq;
        d_step_time := step_time |}.

(** The numbers of the dictionary [display_entry], app.py 121-124 and
    129-133, in the order the dictionary display evaluates them. *)
Record display_numbers : Type := {
  n_N : Z;
  n_I0 : Z;
  n_R0 : Z;
  n_days : Z;
  n_peak_I : option Z;
  n_peak_day : option float;
  n_final_S : option Z;
  n_final_I : option Z;
  n_final_R : option Z
}.

(** [int(float(entry.get(k))) if entry.get(k, "") != "" else None]. *)
Definition int_if_set (k : string) (entry : record) : result (option Z) :=
  if ne_empty (get k (CStr "") entry) then
    x <- py_float (get k CNone entry) ;;
    z <- py_int x ;;
    Ok (Some z)
  else Ok None.

(** [float(entry.get(k)) if entry.get(k, "") != "" else None]. *)
Definition float_if_set (k : string) (entry : record)
    : result (option float) :=
  if ne_empty (get k (CStr "") entry) then
    x <- py_float (get k CNone entry) ;;
    Ok (Some x)
  else Ok None.

Definition display_entry_numbers (args : detail_args) (entry : record)
    : result display_numbers :=
  n <- py_int (d_N args) ;;
  i0 <- py_int (d_I0 args) ;;
  r0 <- py_int (d_R0 args) ;;
  peak_I <- int_if_set "peak_I" entry ;;
  peak_day <- float_if_set "peak_day" entry ;;
  final_S <- int_if_set "final_S" entry ;;
  final_I <- int_if_set "final_I" entry ;;
  final_R <- int_if_set "final_R" entry ;;
  Ok {| n_N := n; n_I0 := i0; n_R0 := r0; n_days := d_days args;
        n_peak_I := peak_I; n_peak_day := peak_day; n_final_S := final_S;
        n_final_I := final_I; n_final_R := final_R |}.

End App.

(* ===================================================================== *)
(** ** Shapes of store contents used in the statements *)
(* ===================================================================== *)

Module Store.

Import Binary64 History.
Local Open Scope float_scope.

(** Every data line has one field per canonical column. *)
Definition full_rows (body : list (list field)) : Prop :=
  Forall (fun r => List.length r = 18%nat) body.

(** *** Files on which reading field by field is what pandas does *)

(** The characters a number is spelt with, and the blank that pandas skips
    around one. *)
Definition numeric_char (c : ascii) : bool :=
  let n := nat_of_ascii c in
  ((48 <=? n) && (n <=? 57) || (n =? 43) || (n =? 45) || (n =? 46)
   || (n =? 101) || (n =? 69) || (n =? 32))%nat.

(** No control character. *)
Definition printable (c : ascii) : bool :=
  let n := nat_of_ascii c in ((32 <=? n) && negb (n =? 127))%nat.

Definition lower (c : ascii) : ascii :=
  let n := nat_of_ascii c in
  if ((65 <=? n) && (n <=? 90))%nat then ascii_of_nat (n + 32) else c.

Fixpoint drop_spaces (l : list ascii) : list ascii :=
  match l with
  | " "%char :: l' => drop_spaces l'
  | _ => l
  end.

Definition drop_sign (l : list ascii) : list ascii :=
  match l with
  | "+"%char :: l' => l'
  | "-"%char :: l' => l'
  | _ => l
  end.

(** The text without the blanks around it and without a leading sign, in
    lower case. *)
Definition word_of (s : string) : string :=
  string_of_list_ascii
    (map lower
         (rev (drop_spaces
                 (rev (drop_sign (drop_spaces (list_ascii_of_string s))))))).

(** The words that pandas reads as a number or as a truth value. *)
Definition number_words : list string :=
  ["inf"; "infinity"; "nan"; "true"; "false"].

(** Text that [pd.read_csv] leaves as text, whatever else its column
    holds: it has no control character, it has a character that no number
    is spelt with, it is not one of the words for an infinity, a NaN or a
    truth value (in any case, signed or padded), and it is not an NA token.
    The test is on the safe side: it refuses some text that pandas would
    leave as text. *)
Definition plain_text (s : string) : bool :=
  let l := list_ascii_of_string s in
  forallb printable l
  && existsb (fun c => negb (numeric_char c)) l
  && negb (existsb (String.eqb (word_of s)) number_words)
  && negb (existsb (String.eqb s) na_values).

(** Text that reads back as itself or as a missing value. *)
Definition plain_or_na (s : string) : bool :=
  plain_text s || existsb (String.eqb s) na_values.

(** An integer that pandas reads into an [int64] column. *)
Definition int64 (z : Z) : bool := ((- 2 ^ 63 <=? z) && (z <? 2 ^ 63))%Z.

(** What the columns of the store hold: text ([id], [timestamp], [signal],
    [summary]), floats, or integers ([days]). *)
Inductive kind : Set := KText | KFloat | KInt.

Definition canonical_kinds : list kind :=
  [KText; KText; KFloat; KFloat; KFloat; KFloat; KFloat; KInt; KText;
   KFloat; KFloat; KFloat; KFloat; KFloat; KFloat; KFloat; KFloat; KText].

(** A field that fits its column: plain text or a missing value in a text
    column, a float or a missing value in a float column, an [int64] in the
    integer column (a missing value there would make pandas read the whole
    column as floats). *)
Definition field_ok (k : kind) (f : field) : bool :=
  match k, f with
  | KText, FText s => plain_or_na s
  | KFloat, FFloat _ => true
  | KFloat, FText s => existsb (String.eqb s) na_values
  | KInt, FInt z => int64 z
  | _, _ => false
  end.

Fixpoint fields_ok (ks : list kind) (l : list field) : bool :=
  match ks, l with
  | [], [] => true
  | k :: ks', f :: l' => field_ok k f && fields_ok ks' l'
  | _, _ => false
  end.

(** A data line with one field per canonical column, each fitting its
    column. *)
Definition typed_line (r : list field) : bool :=
  fields_ok canonical_kinds r.

(** A file body on which pandas' typing of whole columns agrees with
    reading field by field: every line is typed.  The store keeps a file in
    this shape when the runs saved are [storable]. *)
Definition typed_body (body : list (list field)) : Prop :=
  Forall (fun r => typed_line r = true) body.


(** A data line of a file with any header: one field per column, and at
    least two columns (so that the line is not blank). *)
Definition uniform_rows (width : nat) (body : list (list field)) : Prop :=
  (2 <= width)%nat /\ Forall (fun r => List.length r = width) body.

(** No data line has the text [entry_id] in its first field. *)
Definition id_free (entry_id : string) (body : list (list field)) : Prop :=
  Forall (fun r => hd_error r <> Some (FText entry_id)) body.

(** The timestamp text of a record handed to the template. *)
Definition timestamp_of (r : record) : string :=
  match lookup "timestamp" r with
  | Some (CStr s) => s
  | _ => ""
  end.








(** A data line as [save_history_entry] writes it, for the examples. *)
Definition sample_line (entry_id ts : string) : list field :=
  map write_cell
      (map snd (entry_record entry_id ts 0.3 0.1 1000000 10 0 100 "step"
                             0.5 1 (Some 50) (Some "text")
                             (Some 5) (Some 6) (Some 7) (Some 8) (Some 9))).

End Store.

(* ===================================================================== *)
(** ** Notions used in the statements about the summary *)
(* ===================================================================== *)

Module Narrative.

Import Binary64 Summary.
Local Open Scope float_scope.

(** What [np.nanmax] keeps while it scans: [a] is one of the entries read
    so far, it is NaN only if every one of them is, and no entry read so far
    that is a number exceeds it. *)
Definition running_max (a : float) (seen : list float) : Prop :=
  In a seen
  /\ (is_nan a = true -> forall y, In y seen -> is_nan y = true)
  /\ (forall y, In y seen -> is_nan y = false -> (y <=? a) = true).

(** The sentence on the control signal, train.py 269-281, given the value
    [m] of [np.nanmax(u)]. *)
Definition signal_line (s : string) (u : list float) (m : float) : line :=
  if (negb (s =? "")%string && negb (s =? "none")%string)%bool then
    if 1.05 <? m then
      [Lit "Efek sinyal ("; Lit s;
       Lit "): sinyal meningkatkan β sementara (max factor ";
       Fmt2f m; Lit "), mempengaruhi kurva I(t)."]
    else
      [Lit "Efek sinyal ("; Lit s;
       Lit "): perubahan β relatif kecil (rata-rata faktor ";
       Fmt2f (np_nanmean u); Lit ")."]
  else no_signal.

End Narrative.

(* ===================================================================== *)
(** * Properties *)
(* ===================================================================== *)

(** ** Facts about binary64 values *)

Module FloatFacts.

Import Binary64.
Local Open Scope float_scope.

Lemma finite_cases (x : float) :
  finite x = true ->
  (exists s, Prim2SF x = S754_zero s)
  \/ (exists s m e, Prim2SF x = S754_finite s m e).
Proof.
  unfold finite, is_finite, is_nan, is_infinity.
  rewrite !FloatAxioms.eqb_spec, abs_spec.
  replace (Prim2SF infinity) with (S754_infinity false) by reflexivity.
  destruct (Prim2SF x) as [s|s| |s m e]; simpl; intro Hf.
  - left; eauto.
  - exfalso. revert Hf. unfold SFeqb. simpl. destruct s; simpl; discriminate.
  - discriminate.
  - right; eauto.
Qed.

Lemma finite_not_nan (x : float) : finite x = true -> is_nan x = false.
Proof.
  unfold finite, is_finite. destruct (is_nan x); simpl; congruence.
Qed.

Lemma is_nan_spec (x : float) : is_nan x = true <-> Prim2SF x = S754_nan.
Proof.
  unfold is_nan. rewrite FloatAxioms.eqb_spec. unfold SFeqb.
  destruct (Prim2SF x) as [[]|[]| |[] m e]; simpl;
    try (rewrite Z.compare_refl, Pos.compare_cont_refl);
    simpl; split; congruence.
Qed.

Lemma not_nan_spec (x : float) : is_nan x = false <-> Prim2SF x <> S754_nan.
Proof.
  rewrite <- is_nan_spec. destruct (is_nan x); split; congruence.
Qed.

Lemma zero_cases (x : float) :
  (exists s, Prim2SF x = S754_zero s) -> x = zero \/ x = neg_zero.
Proof.
  intros [s E].
  destruct s; [right|left]; apply Prim2SF_inj; rewrite E; reflexivity.
Qed.

(** A finite value minus itself is +0. *)
Lemma sub_diag (x : float) : finite x = true -> x - x = zero.
Proof.
  intro Hf. apply Prim2SF_inj. rewrite sub_spec.
  destruct (finite_cases x Hf) as [[s E]|[s [m [e E]]]]; rewrite E.
  - destruct s; reflexivity.
  - unfold SF64sub, SFsub. rewrite Z.min_id, Z.sub_diag. reflexivity.
Qed.

(** Anything minus itself, divided by itself minus itself, is NaN. *)
Lemma zero_over_zero (x : float) : (x - x) / (x - x) = nan.
Proof.
  apply Prim2SF_inj. rewrite div_spec, sub_spec.
  destruct (Prim2SF x) as [[]|[]| |s m e]; try reflexivity.
  unfold SF64sub, SFsub. rewrite Z.min_id, Z.sub_diag. reflexivity.
Qed.

Lemma mul_nan_r (x : float) : x * nan = nan.
Proof.
  apply Prim2SF_inj. rewrite mul_spec.
  replace (Prim2SF nan) with S754_nan by reflexivity.
  destruct (Prim2SF x) as [[]|[]| |s m e]; reflexivity.
Qed.

Lemma mul_nan_l (x : float) : nan * x = nan.
Proof.
  apply Prim2SF_inj. rewrite mul_spec.
  replace (Prim2SF nan) with S754_nan by reflexivity.
  destruct (Prim2SF x) as [[]|[]| |s m e]; reflexivity.
Qed.

Lemma div_nan_l (x : float) : nan / x = nan.
Proof.
  apply Prim2SF_inj. rewrite div_spec.
  replace (Prim2SF nan) with S754_nan by reflexivity.
  destruct (Prim2SF x) as [[]|[]| |s m e]; reflexivity.
Qed.

Lemma sub_nan_l (x : float) : nan - x = nan.
Proof.
  apply Prim2SF_inj. rewrite sub_spec.
  replace (Prim2SF nan) with S754_nan by reflexivity.
  destruct (Prim2SF x) as [[]|[]| |s m e]; reflexivity.
Qed.

(** A finite value times a zero is a zero. *)
Lemma mul_zero_r (x z : float) :
  finite x = true -> z = zero \/ z = neg_zero ->
  x * z = zero \/ x * z = neg_zero.
Proof.
  intros Hf Hz. apply zero_cases. rewrite mul_spec.
  destruct (finite_cases x Hf) as [[s E]|[s [m [e E]]]]; rewrite E;
    destruct Hz as [-> | ->]; simpl; eauto.
Qed.

Ltac cmp_cases :=
  repeat match goal with
  | |- context [(?a ?= ?b)%Z] => destruct (Z.compare_spec a b)
  | |- context [Pos.compare_cont Eq ?a ?b] =>
      change (Pos.compare_cont Eq a b) with (Pos.compare a b);
      destruct (Pos.compare_spec a b)
  end.

Lemma SFltb_key (x y : spec_float) :
  x <> S754_nan -> y <> S754_nan ->
  (SFltb x y = true <-> lexlt (key x) (key y)).
Proof.
  intros Hx Hy. unfold SFltb.
  destruct x as [[]|[]| |[] mx ex], y as [[]|[]| |[] my ey];
    try congruence; cbn -[Z.compare Pos.compare_cont];
    cmp_cases; cbn; split; intro; try discriminate; try reflexivity; try lia.
Qed.

Lemma SFleb_key (x y : spec_float) :
  x <> S754_nan -> y <> S754_nan ->
  (SFleb x y = true <-> ~ lexlt (key y) (key x)).
Proof.
  intros Hx Hy. unfold SFleb.
  destruct x as [[]|[]| |[] mx ex], y as [[]|[]| |[] my ey];
    try congruence; cbn -[Z.compare Pos.compare_cont];
    cmp_cases; cbn; split; intro; try discriminate; try reflexivity; try lia.
Qed.

Lemma ltb_key (x y : float) :
  is_nan x = false -> is_nan y = false ->
  ((x <? y) = true <-> lexlt (key (Prim2SF x)) (key (Prim2SF y))).
Proof.
  intros Hx Hy. rewrite ltb_spec.
  apply SFltb_key; apply not_nan_spec; assumption.
Qed.

Lemma leb_key (x y : float) :
  is_nan x = false -> is_nan y = false ->
  ((x <=? y) = true <-> ~ lexlt (key (Prim2SF y)) (key (Prim2SF x))).
Proof.
  intros Hx Hy. rewrite leb_spec.
  apply SFleb_key; apply not_nan_spec; assumption.
Qed.

Ltac by_keys x y z :=
  destruct (key (Prim2SF x)) as [[? ?] ?];
  destruct (key (Prim2SF y)) as [[? ?] ?];
  destruct (key (Prim2SF z)) as [[? ?] ?];
  unfold lexlt in *; lia.

(** On values that are not NaN the comparisons are a total preorder. *)
Lemma ltb_trans (x y z : float) :
  is_nan x = false -> is_nan y = false -> is_nan z = false ->
  (x <? y) = true -> (y <? z) = true -> (x <? z) = true.
Proof.
  intros Hx Hy Hz. rewrite !ltb_key by assumption. by_keys x y z.
Qed.

Lemma leb_ltb_trans (x y z : float) :
  is_nan x = false -> is_nan y = false -> is_nan z = false ->
  (x <=? y) = true -> (y <? z) = true -> (x <? z) = true.
Proof.
  intros Hx Hy Hz. rewrite leb_key, !ltb_key by assumption. by_keys x y z.
Qed.

Lemma leb_trans (x y z : float) :
  is_nan x = false -> is_nan y = false -> is_nan z = false ->
  (x <=? y) = true -> (y <=? z) = true -> (x <=? z) = true.
Proof.
  intros Hx Hy Hz. rewrite !leb_key by assumption. by_keys x y z.
Qed.

Lemma not_ltb_leb (x y : float) :
  is_nan x = false -> is_nan y = false ->
  (x <? y) = false -> (y <=? x) = true.
Proof.
  intros Hx Hy Hlt. apply leb_key; try assumption.
  intro Hk. apply ltb_key in Hk; congruence.
Qed.

Lemma ltb_leb (x y : float) :
  is_nan x = false -> is_nan y = false ->
  (x <? y) = true -> (x <=? y) = true.
Proof.
  intros Hx Hy. rewrite leb_key, ltb_key by assumption. by_keys x y x.
Qed.

Lemma leb_refl (x : float) : is_nan x = false -> (x <=? x) = true.
Proof.
  intros Hx. rewrite leb_key by assumption. by_keys x x x.
Qed.

End FloatFacts.

(* ===================================================================== *)
(** ** The control signal and the ODE right-hand side *)
(* ===================================================================== *)

Module SignalFacts.

Import Binary64 FloatFacts.
Local Open Scope py_scope.

Section Generic.

Context {F : Type} {num : PyNum F}.

Lemma bind_ok {A B : Type} (c : result A) (k : A -> result B) (b : B) :
  bind c k = Ok b -> exists a, c = Ok a /\ k a = Ok b.
Proof.
  destruct c as [a|e]; simpl; intro E; [eauto | discriminate].
Qed.

(** Whatever the variant, the signal has one value per sample. *)
Lemma control_signal_length (t : list F) (s : string) (amp freq : F)
    (st : option F) (r : list F) :
  control_signal t s amp freq st = Ok r -> List.length r = List.length t.
Proof.
  unfold control_signal.
  repeat match goal with
  | |- context [if ?b then _ else _] => destruct b
  end; intro E;
  repeat match goal with
  | E : bind _ _ = Ok _ |- _ =>
      apply bind_ok in E; destruct E as [? [? E]]
  end;
  injection E as <-; apply length_map.
Qed.

(** On a non-empty sample set no variant raises. *)
Lemma control_signal_returns (t0 : F) (t : list F) (s : string)
    (amp freq : F) (st : option F) :
  exists r, control_signal (t0 :: t) s amp freq st = Ok r.
Proof.
  unfold control_signal, np_max, np_min.
  repeat match goal with
  | |- context [if ?b then _ else _] => destruct b
  end; destruct st; simpl; eauto.
Qed.


(** C10.  Any signal type other than "step", "impulse", "ramp" and "sin"
    (a typo, say) falls to the last branch: no error, the value 1 for every
    sample, exactly as for "none". *)
Theorem unknown_signal_type_is_none (t : list F) (s : string)
    (amp freq : F) (st : option F) :
  s <> "step" -> s <> "impulse" -> s <> "ramp" -> s <> "sin" ->
  control_signal t s amp freq st = Ok (map (fun _ => lit_1) t)
  /\ control_signal t s amp freq st = control_signal t "none" amp freq st.
Proof.
  intros H1 H2 H3 H4.
  apply String.eqb_neq in H1, H2, H3, H4.
  unfold control_signal. rewrite H1, H2, H3, H4. split; reflexivity.
Qed.

End Generic.

Local Open Scope float_scope.

Section Examples.

#[local] Existing Instance ref_libm.

Lemma unknown_signal_type_is_none_witness :
  control_signal [0; 1; 2] "stepp" 0.5 1 None
  = Ok (map (fun _ => 1) [0; 1; 2])
  /\ control_signal [0; 1; 2] "stepp" 0.5 1 None
     = control_signal [0; 1; 2] "none" 0.5 1 None.
Proof.
  refine (unknown_signal_type_is_none [0; 1; 2] "stepp" 0.5 1 None _ _ _ _);
    discriminate.
Defined.

End Examples.

Section Machine.

Context {M : Libm}.

(** C1 (the code departs from it).  On a one-sample time set the ramp
    variant divides [t - t0] by [t1 - t0] with [t0 = t1 = t]: the value is
    NaN for every [t] and every amplitude, and since [sir_ode] always
    evaluates the signal on the one-sample set [[t]], so are the derivatives
    of S and I. *)
Theorem ramp_single_point_is_nan (y : state)
    (t beta gamma N amp freq : float) (st : option float) :
  control_signal [t] "ramp" amp freq st = Ok [nan]
  /\ sir_ode y t beta gamma N "ramp" amp freq st
     = Ok (nan, nan, gamma * snd (fst y)).
Proof.
  assert (E : control_signal [t] "ramp" amp freq st = Ok [nan]).
  { unfold control_signal; cbn.
    rewrite zero_over_zero, mul_nan_r. reflexivity. }
  split; [exact E|].
  destruct y as [[S_ I_] R_]. unfold sir_ode. rewrite E. cbn.
  rewrite mul_nan_r.
  change (- nan) with nan.
  rewrite !mul_nan_l, div_nan_l, sub_nan_l. reflexivity.
Qed.

(** C2 (the code departs from it).  With [step_time] unset the switch is
    at half the span, [(max - min) / 2], not at the midpoint
    [(max + min) / 2].  On the samples 10, 12, ..., 20 the code switches at
    5, so every sample has the stepped value 1.5; a switch at the midpoint
    15 gives 1 for the first three samples. *)
Theorem step_default_is_half_span :
  let T := [10; 12; 14; 16; 18; 20] in
  control_signal T "step" 0.5 1 None = Ok [1.5; 1.5; 1.5; 1.5; 1.5; 1.5]
  /\ control_signal T "step" 0.5 1 None
     = control_signal T "step" 0.5 1 (Some ((20 - 10) / 2))
  /\ control_signal T "step" 0.5 1 (Some ((20 + 10) / 2))
     = Ok [1; 1; 1; 1.5; 1.5; 1.5].
Proof.
  repeat split; reflexivity.
Qed.

(** On a one-sample time set the sine variant is exactly 1 when the numbers
    are finite and [2 * pi * freq] does not overflow. *)
Lemma sin_single_point (t amp freq : float) (st : option float) :
  finite t = true -> finite amp = true ->
  finite (lit_2 * np_pi * freq)%num = true ->
  control_signal [t] "sin" amp freq st = Ok [1].
Proof.
  intros Ht Ha Hf. unfold control_signal; cbn. cbn in Hf.
  rewrite (sub_diag t Ht).
  change (py_max 1 zero) with 1.
  destruct (mul_zero_r _ zero Hf (or_introl eq_refl)) as [-> | ->].
  - change (zero / 1) with zero. rewrite sin_pzero.
    destruct (mul_zero_r amp zero Ha (or_introl eq_refl)) as [-> | ->];
      reflexivity.
  - change (neg_zero / 1) with neg_zero. rewrite sin_nzero.
    destruct (mul_zero_r amp neg_zero Ha (or_intror eq_refl)) as [-> | ->];
      reflexivity.
Qed.

(** The other variants on the one-sample set [[5]]: each is a number. *)
Example other_variants_single_point :
  control_signal [5] "none" 0.5 1 None = Ok [1]
  /\ control_signal [5] "step" 0.5 1 None = Ok [1.5]
  /\ control_signal [5] "impulse" 0.5 1 None = Ok [1.5]
  /\ control_signal [5] "sin" 0.5 1 None = Ok [1].
Proof.
  repeat split; try reflexivity.
  - unfold control_signal; cbn.
    change ((5 - 5) / 0.5 * ((5 - 5) / 0.5))%float with zero.
    change (- (0.5) * zero)%float with neg_zero.
    rewrite exp_nzero. reflexivity.
  - apply sin_single_point; reflexivity.
Qed.

(** C3, as amended.  For finite [t] and [amp], and [freq] with
    [2 * pi * freq] finite, the derivative with the sine signal is the
    derivative with no signal: the multiplier evaluated on [[t]] is 1. *)
Theorem sin_ode_equals_none (y : state)
    (t beta gamma N amp freq : float) (st : option float) :
  finite t = true -> finite amp = true ->
  finite (lit_2 * np_pi * freq)%num = true ->
  sir_ode y t beta gamma N "sin" amp freq st
  = sir_ode y t beta gamma N "none" amp freq st.
Proof.
  intros Ht Ha Hf. destruct y as [[S_ I_] R_]. unfold sir_ode.
  rewrite (sin_single_point t amp freq st Ht Ha Hf). reflexivity.
Qed.

End Machine.

Lemma sin_ode_equals_none_witness :
  sir_ode (num := @float_num ref_libm) (999990, 10, 0) 3.5 0.3 0.1 1000000
          "sin" 0.5 2 None
  = sir_ode (num := @float_num ref_libm) (999990, 10, 0) 3.5 0.3 0.1 1000000
            "none" 0.5 2 None.
Proof.
  apply (@sin_ode_equals_none ref_libm (999990, 10, 0) 3.5 0.3 0.1 1000000
           0.5 2 None); reflexivity.
Defined.

(** C3 as stated fails: at [freq = 1e308] the product [2 * pi * freq]
    overflows to infinity, infinity times the zero [t - t] is NaN, and the
    derivative with the sine signal is NaN where the one with no signal is
    a number. *)
Lemma sin_ode_differs_on_overflow :
  ~ (forall (M : Libm) (y : state) (t beta gamma N amp freq : float)
            (st : option float),
        sir_ode y t beta gamma N "sin" amp freq st
        = sir_ode y t beta gamma N "none" amp freq st).
Proof.
  intro H.
  specialize (H ref_libm (999990, 10, 0) 0 0.3 0.1 1000000 0.5 1e308 None).
  apply (f_equal (fun r => match r with
                           | Ok (dS, _, _) => is_nan dS
                           | Raise _ => false
                           end)) in H.
  vm_compute in H. discriminate.
Qed.

End SignalFacts.

(* ===================================================================== *)
(** ** Conservation: the derivatives in exact and in machine arithmetic *)
(* ===================================================================== *)

Module ConservationFacts.

Import Binary64 Ideal SignalFacts.

(** The divisors that [sir_ode] meets in exact arithmetic when the signal
    is not the ramp: 2 (the default step time), the width of the impulse,
    at least 1/2, and the span of the sine, floored at 1.  None is zero, so
    the signal at the one time point is a real number that real division
    gives as the code's formula does.  (The ramp divides by the span
    [t - t = 0]: it has no value in exact arithmetic, and the code computes
    NaN there.) *)
Lemma single_point_divisors (t : R) :
  2%R <> 0%R
  /\ py_max (((t - t) * (2 / 100))%R) (1 / 2)%R = (1 / 2)%R
  /\ py_max 1%R ((t - t)%R) = 1%R.
Proof.
  split; [lra|]. unfold py_max. cbn [lt real_num]. unfold Rltb. split.
  - destruct (Rlt_dec ((t - t) * (2 / 100)) (1 / 2)) as [_|H];
      [reflexivity | exfalso; apply H; lra].
  - destruct (Rlt_dec 1 (t - t)) as [H|_]; [exfalso; lra | reflexivity].
Qed.



Local Open Scope float_scope.


End ConservationFacts.

(* ===================================================================== *)
(** ** The summary generator *)
(* ===================================================================== *)

Module SummaryFacts.

Import Binary64 FloatFacts Summary.
Local Open Scope float_scope.
Local Open Scope py_scope.

Lemma py_int_finite (x : float) :
  finite x = true -> exists z, py_int x = Ok z.
Proof.
  intro Hf. unfold py_int.
  destruct (finite_cases x Hf) as [[s ->]|[s [m [e ->]]]]; eauto.
Qed.

Lemma py_round_finite (x : float) :
  finite x = true -> exists z, py_round x = Ok z.
Proof.
  intro Hf. unfold py_round.
  destruct (finite_cases x Hf) as [[s ->]|[s [m [e ->]]]]; eauto.
Qed.

Lemma finite_no_nan (l : list float) : forallb finite l = true -> no_nan l.
Proof.
  intro H. apply Forall_forall. intros x Hx.
  apply finite_not_nan. rewrite forallb_forall in H. auto.
Qed.

Lemma replace_nan_id (l : list float) : no_nan l -> replace_nan l = l.
Proof.
  induction 1 as [|x l Hx _ IH]; simpl; [reflexivity|].
  rewrite Hx. f_equal. exact IH.
Qed.

(** What the scan of [np.argmax] returns: with [pre] the entries already
    read, [best] the largest of them and [besti] the first place it occurs,
    the result is the first place of the largest entry of the whole list. *)
Lemma argmax_from_spec (l : list float) :
  forall (pre : list float) (best : float) (besti : nat),
    no_nan (pre ++ l) ->
    nth_error pre besti = Some best ->
    (forall j x, nth_error pre j = Some x -> (x <=? best) = true) ->
    (forall j x, (j < besti)%nat -> nth_error pre j = Some x ->
                 (x <? best) = true) ->
    exists p,
      nth_error (pre ++ l) (argmax_from best besti (List.length pre) l) = Some p
      /\ (forall j x, nth_error (pre ++ l) j = Some x -> (x <=? p) = true)
      /\ (forall j x, (j < argmax_from best besti (List.length pre) l)%nat ->
                      nth_error (pre ++ l) j = Some x -> (x <? p) = true).
Proof.
  induction l as [|x l IH]; intros pre best besti Hnn Hb Hle Hlt.
  - simpl. rewrite app_nil_r. eauto.
  - assert (Hbi : (besti < List.length pre)%nat)
      by (apply nth_error_Some; congruence).
    assert (Nx : is_nan x = false).
    { unfold no_nan in Hnn. rewrite Forall_forall in Hnn. apply Hnn.
      apply in_or_app; right; left; reflexivity. }
    assert (Npre : forall j y, nth_error pre j = Some y -> is_nan y = false).
    { intros j y Hy. unfold no_nan in Hnn. rewrite Forall_forall in Hnn.
      apply Hnn.
      apply in_or_app; left. eapply nth_error_In; eassumption. }
    assert (Nb : is_nan best = false) by (eapply Npre; eassumption).
    assert (Hsplit : forall j y, nth_error (pre ++ [x]) j = Some y ->
              nth_error pre j = Some y
              \/ (j = List.length pre /\ y = x)).
    { intros j y Hy.
      destruct (Nat.lt_ge_cases j (List.length pre)) as [Hj|Hj].
      - left. rewrite nth_error_app1 in Hy by assumption. exact Hy.
      - right. rewrite nth_error_app2 in Hy by assumption.
        destruct (j - List.length pre)%nat as [|k] eqn:Ek; simpl in Hy.
        + split; [lia | congruence].
        + destruct k; discriminate. }
    replace (pre ++ x :: l) with ((pre ++ [x]) ++ l) in *
      by (rewrite <- app_assoc; reflexivity).
    simpl argmax_from.
    replace (S (List.length pre)) with (List.length (pre ++ [x]))
      by (rewrite length_app; simpl; lia).
    destruct (best <? x) eqn:Hcmp.
    + apply IH.
      * exact Hnn.
      * rewrite nth_error_app2 by lia. rewrite Nat.sub_diag. reflexivity.
      * intros j y Hy. destruct (Hsplit j y Hy) as [Hp | [_ ->]].
        -- apply ltb_leb; eauto. eapply leb_ltb_trans; eauto.
        -- apply leb_refl; assumption.
      * intros j y Hj Hy. destruct (Hsplit j y Hy) as [Hp | [-> _]]; [|lia].
        eapply leb_ltb_trans; eauto.
    + apply IH.
      * exact Hnn.
      * rewrite nth_error_app1 by assumption. exact Hb.
      * intros j y Hy. destruct (Hsplit j y Hy) as [Hp | [_ ->]].
        -- eauto.
        -- apply not_ltb_leb; assumption.
      * intros j y Hj Hy. destruct (Hsplit j y Hy) as [Hp | [-> _]]; [|lia].
        eauto.
Qed.

(** [np.nanargmax] on a non-empty array without NaN returns the first
    place of the largest entry. *)
Lemma np_nanargmax_spec (l : list float) :
  l <> [] -> no_nan l ->
  exists i p,
    np_nanargmax l = Ok i /\ nth_error l i = Some p
    /\ (forall j x, nth_error l j = Some x -> (x <=? p) = true)
    /\ (forall j x, (j < i)%nat -> nth_error l j = Some x -> (x <? p) = true).
Proof.
  intros Hne Hnn. destruct l as [|x0 l]; [congruence|].
  unfold np_nanargmax.
  assert (N0 : is_nan x0 = false) by (inversion Hnn; assumption).
  replace (forallb is_nan (x0 :: l)) with false by (simpl; rewrite N0; reflexivity).
  rewrite (replace_nan_id _ Hnn). unfold np_argmax.
  destruct (argmax_from_spec l [x0] x0 0%nat) as [p [H1 [H2 H3]]].
  - exact Hnn.
  - reflexivity.
  - intros [|[|j]] x Hx; simpl in Hx; try discriminate.
    injection Hx as <-. apply leb_refl; assumption.
  - intros j x Hj; lia.
  - exists (argmax_from x0 0 1 l), p. simpl in *. auto.
Qed.

Lemma item_nth {A : Type} (l : list A) (i : nat) (a : A) :
  nth_error l i = Some a -> item l i = Ok a.
Proof.
  unfold item. intros ->. reflexivity.
Qed.

Lemma item_last_finite (l : list float) :
  l <> [] -> forallb finite l = true ->
  exists x, item_last l = Ok x /\ finite x = true.
Proof.
  intros Hne Hf. destruct l as [|a l]; [congruence|].
  exists (last l a). split; [reflexivity|].
  rewrite forallb_forall in Hf. apply Hf.
  destruct l as [|b l']; [left; reflexivity|].
  right.
  assert (Hx : b :: l' <> []) by discriminate.
  destruct (exists_last Hx) as [l0 [z E]]. rewrite E.
  rewrite last_last. apply in_or_app; right; left; reflexivity.
Qed.

Ltac split_andb :=
  repeat match goal with
  | H : (_ && _)%bool = true |- _ =>
      apply andb_prop in H; destruct H
  end.

Lemma length_pos_nonempty {A : Type} (l : list A) (n : nat) :
  negb (n =? 0)%nat = true -> (List.length l =? n)%nat = true -> l <> [].
Proof.
  intros Hn Hl E. subst l. apply Nat.eqb_eq in Hl. simpl in Hl.
  subst n. discriminate.
Qed.

(** On a valid run the statistics block returns: the peak is the largest
    entry of [I] at its first place, the peak day the entry of [t] at that
    place, the final values the last entries; all of them are finite. *)
Lemma basic_stats_valid (N I0 R0 : float) (t S I R u : list float) :
  valid_run N I0 R0 t S I R u = true ->
  exists st,
    basic_stats t S I R = Ok st
    /\ (exists i,
          nth_error I i = Some (peak_I st)
          /\ nth_error t i = Some (peak_day st)
          /\ (forall j x, nth_error I j = Some x -> (x <=? peak_I st) = true)
          /\ (forall j x, (j < i)%nat -> nth_error I j = Some x ->
                          (x <? peak_I st) = true))
    /\ item_last S = Ok (final_S st)
    /\ item_last I = Ok (final_I st)
    /\ item_last R = Ok (final_R st)
    /\ finite (peak_I st) = true /\ finite (final_S st) = true
    /\ finite (final_I st) = true /\ finite (final_R st) = true.
Proof.
  unfold valid_run. intro Hv. split_andb.
  match goal with
  | Ht : negb _ = true, HS : (List.length S =? _)%nat = true,
    HI : (List.length I =? _)%nat = true,
    HR : (List.length R =? _)%nat = true |- _ =>
      pose proof (length_pos_nonempty S _ Ht HS) as NS;
      pose proof (length_pos_nonempty I _ Ht HI) as NI;
      pose proof (length_pos_nonempty R _ Ht HR) as NR;
      apply Nat.eqb_eq in HI; rename HI into LI
  end.
  match goal with
  | FS : forallb finite S = true, FI : forallb finite I = true,
    FR : forallb finite R = true |- _ =>
      destruct (np_nanargmax_spec I NI (finite_no_nan I FI))
        as [i [p [Ea [Ep [Hmax Hfirst]]]]];
      destruct (item_last_finite S NS FS) as [fS [ES FfS]];
      destruct (item_last_finite I NI FI) as [fI [EI FfI]];
      destruct (item_last_finite R NR FR) as [fR [ER FfR]];
      assert (Fp : finite p = true)
        by (rewrite forallb_forall in FI; apply FI;
            eapply nth_error_In; eassumption)
  end.
  assert (Hi : (i < List.length t)%nat).
  { rewrite <- LI. apply nth_error_Some. congruence. }
  destruct (nth_error t i) as [d|] eqn:Ed;
    [| apply nth_error_Some in Hi; congruence].
  exists {| peak_I := p; peak_day := d;
            final_S := fS; final_I := fI; final_R := fR |}.
  unfold basic_stats. rewrite Ea. simpl bind.
  rewrite (item_nth _ _ _ Ep). simpl bind.
  rewrite (item_nth _ _ _ Ed). simpl bind.
  rewrite ES, EI, ER. simpl.
  repeat split; try assumption; try reflexivity.
  exists i. repeat split; assumption.
Qed.

(** The lines of the narrative on finite statistics: no rendering raises,
    and the first, fifth and seventh lines are the ones below. *)
Lemma summary_lines_returns (beta gamma N I0 R0 : float) (days : Z)
    (st : stats) (u : list float) (s : string) :
  finite N = true -> finite I0 = true -> finite R0 = true ->
  finite (peak_I st) = true -> finite (final_S st) = true ->
  finite (final_I st) = true -> finite (final_R st) = true ->
  u <> [] ->
  exists l2 l3 l4 l6,
    summary_lines beta gamma N I0 R0 days st u s
    = Ok [ [Lit "Model: SIR. Parameter: β="; Fmt4g beta; Lit ", γ=";
            Fmt4g gamma; Lit ", R₀ (β/γ) ≈ ";
            Fmt2f (R0_basic beta gamma); Lit "."];
           l2; l3; l4;
           (if 1.5 <? R0_basic beta gamma then interp_fast
            else if (1.0 <? R0_basic beta gamma)
                    && (R0_basic beta gamma <=? 1.5)
                 then interp_moderate else interp_declining);
           l6;
           (if 1.5 <? R0_basic beta gamma then advice_intervene
            else advice_observe) ].
Proof.
  intros FN FI0 FR0 Fp FS FI FR Hu. unfold summary_lines.
  destruct (py_int_finite N FN) as [n ->].
  destruct (py_int_finite I0 FI0) as [i0 ->].
  destruct (py_int_finite R0 FR0) as [r0 ->].
  destruct (py_round_finite _ Fp) as [p ->].
  destruct (py_round_finite _ FS) as [fs ->].
  destruct (py_round_finite _ FI) as [fi ->].
  destruct (py_round_finite _ FR) as [fr ->].
  simpl bind.
  destruct u as [|u0 u']; [congruence|].
  destruct (negb (s =? "")%string && negb (s =? "none")%string).
  - unfold np_nanmax. simpl bind.
    destruct (1.05 <? fold_left fmax u' u0); simpl; eauto.
  - simpl. eauto.
Qed.

(** C7, as amended.  On every valid run (a non-empty trajectory whose
    series have one length and hold finite values, with finite [N], [I0],
    [R0]) [generate_summary] returns; [peak_I] is the
    largest value of the I series, [peak_day] the value of [t] at the first
    place where that largest value occurs (every earlier entry is strictly
    smaller), and [final_S], [final_I], [final_R] are the last entries of
    their series. *)
Theorem summary_peak_and_finals (beta gamma N I0 R0 : float) (days : Z)
    (t S I R u : list float) (s : string) :
  valid_run N I0 R0 t S I R u = true ->
  exists txt st,
    generate_summary beta gamma N I0 R0 days t S I R u s = Ok (txt, st)
    /\ (exists i,
          nth_error I i = Some (peak_I st)
          /\ nth_error t i = Some (peak_day st)
          /\ (forall j x, nth_error I j = Some x -> (x <=? peak_I st) = true)
          /\ (forall j x, (j < i)%nat -> nth_error I j = Some x ->
                          (x <? peak_I st) = true))
    /\ item_last S = Ok (final_S st)
    /\ item_last I = Ok (final_I st)
    /\ item_last R = Ok (final_R st).
Proof.
  intro Hv.
  destruct (basic_stats_valid N I0 R0 t S I R u Hv)
    as [st [Est [Hpeak [HS [HI [HR [Fp [FS [FI FR]]]]]]]]].
  assert (Hu : u <> []).
  { unfold valid_run in Hv. split_andb.
    eapply length_pos_nonempty; eassumption. }
  assert (FN : finite N = true /\ finite I0 = true /\ finite R0 = true).
  { unfold valid_run in Hv. split_andb. auto. }
  destruct FN as [FN [FI0 FR0]].
  destruct (summary_lines_returns beta gamma N I0 R0 days st u s
              FN FI0 FR0 Fp FS FI FR Hu) as [l2 [l3 [l4 [l6 El]]]].
  unfold generate_summary. rewrite Est. simpl bind. rewrite El. simpl bind.
  eexists. exists st. repeat split; try assumption; reflexivity.
Qed.

Lemma summary_peak_and_finals_witness :
  exists txt st,
    generate_summary 0.3 0.1 1000 10 0 3 [0; 1; 2; 3] [990; 700; 400; 300]
                     [10; 250; 250; 100] [0; 50; 350; 600] [1; 1; 1; 1] "none"
    = Ok (txt, st)
    /\ (exists i,
          nth_error [10; 250; 250; 100] i = Some (peak_I st)
          /\ nth_error [0; 1; 2; 3] i = Some (peak_day st)
          /\ (forall j x, nth_error [10; 250; 250; 100] j = Some x ->
                          (x <=? peak_I st) = true)
          /\ (forall j x, (j < i)%nat ->
                          nth_error [10; 250; 250; 100] j = Some x ->
                          (x <? peak_I st) = true))
    /\ item_last [990; 700; 400; 300] = Ok (final_S st)
    /\ item_last [10; 250; 250; 100] = Ok (final_I st)
    /\ item_last [0; 50; 350; 600] = Ok (final_R st).
Proof.
  apply (summary_peak_and_finals 0.3 0.1 1000 10 0 3 [0; 1; 2; 3]
           [990; 700; 400; 300] [10; 250; 250; 100] [0; 50; 350; 600]
           [1; 1; 1; 1] "none").
  reflexivity.
Defined.

(** C7 as stated fails: on a non-empty trajectory whose I series holds an
    infinity, the peak is that infinity and [round(peak_I)] raises
    [OverflowError]; [generate_summary] returns no statistics. *)
Lemma summary_peak_infinite_raises :
  generate_summary 0.3 0.1 1000 10 0 1 [0; 1] [990; 0] [10; infinity]
                   [0; 0] [1; 1] "none"
  = Raise OverflowError.
Proof. reflexivity. Qed.

(** With equal largest values at places 1 and 2, the peak day is the day
    at place 1. *)
Example peak_day_first_of_ties :
  basic_stats [0; 1; 2; 3] [990; 700; 400; 300] [10; 250; 250; 100]
              [0; 50; 350; 600]
  = Ok {| peak_I := 250; peak_day := 1;
          final_S := 300; final_I := 100; final_R := 600 |}.
Proof. reflexivity. Qed.

Lemma R0_basic_gamma_zero (beta gamma : float) :
  (gamma =? 0) = true -> R0_basic beta gamma = infinity.
Proof.
  intro Hg. unfold R0_basic. rewrite Hg. reflexivity.
Qed.

(** C5, as amended.  For [gamma = 0] (either zero), any [beta] and any
    valid run, [generate_summary] returns: the reproduction number is
    +infinity and is what the first line renders, the fifth line is the
    fast-spread interpretation and the seventh the advice to intervene. *)
Theorem summary_gamma_zero (beta gamma N I0 R0 : float) (days : Z)
    (t S I R u : list float) (s : string) :
  (gamma =? 0) = true ->
  valid_run N I0 R0 t S I R u = true ->
  R0_basic beta gamma = infinity
  /\ exists l2 l3 l4 l6 st,
       generate_summary beta gamma N I0 R0 days t S I R u s
       = Ok (join (Lit " ")
               [ [Lit "Model: SIR. Parameter: β="; Fmt4g beta; Lit ", γ=";
                  Fmt4g gamma; Lit ", R₀ (β/γ) ≈ "; Fmt2f infinity; Lit "."];
                 l2; l3; l4; interp_fast; l6; advice_intervene ],
             st).
Proof.
  intros Hg Hv. split; [apply R0_basic_gamma_zero; exact Hg|].
  destruct (basic_stats_valid N I0 R0 t S I R u Hv)
    as [st [Est [_ [_ [_ [_ [Fp [FS [FI FR]]]]]]]]].
  assert (Hu : u <> []).
  { unfold valid_run in Hv. split_andb.
    eapply length_pos_nonempty; eassumption. }
  assert (FN : finite N = true /\ finite I0 = true /\ finite R0 = true).
  { unfold valid_run in Hv. split_andb. auto. }
  destruct FN as [FN [FI0 FR0]].
  destruct (summary_lines_returns beta gamma N I0 R0 days st u s
              FN FI0 FR0 Fp FS FI FR Hu) as [l2 [l3 [l4 [l6 El]]]].
  rewrite (R0_basic_gamma_zero beta gamma Hg) in El.
  change (1.5 <? infinity) with true in El. cbv iota in El.
  unfold generate_summary. rewrite Est. simpl bind. rewrite El. simpl bind.
  exists l2, l3, l4, l6, st. reflexivity.
Qed.

Lemma summary_gamma_zero_witness :
  R0_basic 0.3 0 = infinity
  /\ exists l2 l3 l4 l6 st,
       generate_summary 0.3 0 1000 10 0 3 [0; 1; 2; 3] [990; 700; 400; 300]
                        [10; 250; 250; 100] [0; 0; 0; 0] [1; 1; 1; 1] "none"
       = Ok (join (Lit " ")
               [ [Lit "Model: SIR. Parameter: β="; Fmt4g 0.3; Lit ", γ=";
                  Fmt4g 0; Lit ", R₀ (β/γ) ≈ "; Fmt2f infinity; Lit "."];
                 l2; l3; l4; interp_fast; l6; advice_intervene ],
             st).
Proof.
  apply (summary_gamma_zero 0.3 0 1000 10 0 3 [0; 1; 2; 3]
           [990; 700; 400; 300] [10; 250; 250; 100] [0; 0; 0; 0]
           [1; 1; 1; 1] "none"); reflexivity.
Defined.

(** C5 as stated fails: with [gamma = 0] and an empty trajectory
    [np.nanargmax] raises [ValueError] before the reproduction number is
    looked at. *)
Lemma summary_gamma_zero_empty_raises :
  generate_summary 0.3 0 1000000 10 0 100 [] [] [] [] [] "none"
  = Raise ValueError.
Proof. reflexivity. Qed.

End SummaryFacts.

(* ===================================================================== *)
(** ** The simulation driver *)
(* ===================================================================== *)

Module SimulateFacts.

Import Binary64 FloatFacts SignalFacts.
Local Open Scope py_scope.

Section Generic.

Context {F : Type} {num : PyNum F}.










End Generic.

Local Open Scope float_scope.



Section Machine.

Context {M : Libm}.

Variable odeint : (state (F := float) -> float -> result (state (F := float)))
                  -> state (F := float) -> list float
                  -> result (list (state (F := float))).



End Machine.

Section Examples.

#[local] Existing Instance ref_libm.



(** The clamp at work: with I0 + R0 above N the first S sample is 0. *)
Example simulate_sir_clamps_S0 :
  exists t S I R u,
    simulate_sir euler_odeint
                 0.3 0.1 100 80 50 10 (Some 3%nat) "none" 0.5 1 None
    = Ok (t, S, I, R, u)
    /\ t = [0; 5; 10] /\ nth_error S 0 = Some 0.
Proof.
  vm_compute. do 5 eexists. repeat split; reflexivity.
Qed.

End Examples.

End SimulateFacts.

(* ===================================================================== *)
(** ** The history store *)
(* ===================================================================== *)

Module HistoryFacts.

Import Binary64 History Store.
Local Open Scope float_scope.

(** A file with no data line loads as the empty canonical frame. *)
Lemma header_only_loads_empty (h : list string) :
  snd (load_history_df (Some (Table h []))) = Ok empty_frame.
Proof.
  destruct h as [|a h]; [reflexivity|].
  unfold load_history_df, _ensure_history.
  destruct (st_size (Table (a :: h) []) <? 200)%nat; reflexivity.
Qed.

Lemma header_only_history_empty (strftime : string -> result string)
    (h : list string) :
  snd (history strftime (Some (Table h []))) = Ok [].
Proof.
  unfold history.
  pose proof (header_only_loads_empty h) as E.
  destruct (load_history_df (Some (Table h []))) as [f r].
  simpl in E. subst r. reflexivity.
Qed.

(** C9.  On a store that does not exist yet, on an empty file, on the
    freshly written header, and on any file with a header and no data line,
    [load_history_df] raises nothing and returns the empty frame with the 18
    canonical columns; the history route built on it hands an empty table to
    the template. *)
Theorem empty_store_loads_empty (strftime : string -> result string)
    (h : list string) :
  let fresh := Some (to_csv empty_frame) in
  columns empty_frame = canonical_columns
  /\ List.length canonical_columns = 18%nat
  /\ rows empty_frame = []
  /\ load_history_df None = (fresh, Ok empty_frame)
  /\ load_history_df (Some Blank) = (fresh, Ok empty_frame)
  /\ load_history_df fresh = (fresh, Ok empty_frame)
  /\ snd (load_history_df (Some (Table h []))) = Ok empty_frame
  /\ snd (history strftime None) = Ok []
  /\ snd (history strftime (Some Blank)) = Ok []
  /\ snd (history strftime fresh) = Ok []
  /\ snd (history strftime (Some (Table h []))) = Ok [].
Proof.
  repeat split; try reflexivity.
  - apply header_only_loads_empty.
  - apply header_only_history_empty.
Qed.

(** A file with a data line is left as it is. *)
Lemma ensure_keeps_records (h : list string) (row : list field)
    (body : list (list field)) :
  _ensure_history (Some (Table h (row :: body)))
  = Some (Table h (row :: body)).
Proof.
  unfold _ensure_history.
  destruct (st_size (Table h (row :: body)) <? 200)%nat; reflexivity.
Qed.

(** What a value is after the trip through the file. *)
Lemma reload_values (x : float) (z : Z) (s : string) :
  reload (CStr "") = CFloat nan
  /\ reload CNone = CFloat nan
  /\ reload (CInt z) = CInt z
  /\ (is_nan x = false -> reload (CFloat x) = CFloat x)
  /\ (existsb (String.eqb s) na_values = false -> reload (CStr s) = CStr s).
Proof.
  repeat split; try reflexivity.
  - intro Hx. unfold reload, write_cell. rewrite Hx. reflexivity.
  - intro Hs. unfold reload, write_cell, read_field. rewrite Hs. reflexivity.
Qed.

(** Plain text is not an NA token. *)
Lemma plain_not_na (s : string) :
  plain_text s = true -> existsb (String.eqb s) na_values = false.
Proof.
  unfold plain_text. intro H.
  apply andb_prop in H. destruct H as [_ H].
  apply negb_true_iff in H. exact H.
Qed.




(** With [step_time] set and a summary text, every field reads back as
    written. *)
Example set_step_time_reads_back :
  let written :=
    entry_record "id-1" "2024-01-01T00:00:00" 0.3 0.1 1000000 10 0 100
                 "step" 0.5 1 (Some 50) (Some "text")
                 (Some 5) (Some 6) (Some 7) (Some 8) (Some 9) in
  let saved :=
    save_history_entry None "id-1" "2024-01-01T00:00:00" 0.3 0.1 1000000 10 0
                       100 "step" 0.5 1 (Some 50) (Some "text")
                       (Some 5) (Some 6) (Some 7) (Some 8) (Some 9) in
  snd (get_history_entry (fst saved) "id-1") = Ok (Some written).
Proof. vm_compute. reflexivity. Qed.

(** C4 (the code departs from it).  A run saved with [step_time] unset
    on a store that does not exist yet: the record written holds the empty
    text for [step_time]; the stored line is found again under the returned
    id, every other field reads back as written, and [step_time] reads back
    as NaN. *)
Theorem unset_step_time_reads_back_nan :
  let written :=
    entry_record "id-1" "2024-01-01T00:00:00" 0.3 0.1 1000000 10 0 100
                 "step" 0.5 1 None (Some "text")
                 (Some 5) (Some 6) (Some 7) (Some 8) (Some 9) in
  let saved :=
    save_history_entry None "id-1" "2024-01-01T00:00:00" 0.3 0.1 1000000 10 0
                       100 "step" 0.5 1 None (Some "text")
                       (Some 5) (Some 6) (Some 7) (Some 8) (Some 9) in
  snd saved = Ok "id-1"
  /\ lookup "step_time" written = Some (CStr "")
  /\ exists found,
       snd (get_history_entry (fst saved) "id-1") = Ok (Some found)
       /\ lookup "id" found = Some (CStr "id-1")
       /\ lookup "step_time" found = Some (CFloat nan)
       /\ lookup "step_time" found <> lookup "step_time" written
       /\ (forall k, k <> "step_time" -> lookup k found = lookup k written).
Proof.
  cbv zeta. split; [reflexivity|]. split; [reflexivity|].
  eexists. split; [vm_compute; reflexivity|].
  split; [reflexivity|]. split; [reflexivity|].
  split; [discriminate|].
  intros k Hk. unfold entry_record. cbn [lookup].
  repeat match goal with
  | |- context [(k =? ?c)%string] =>
      destruct (String.eqb_spec k c); [first [reflexivity | congruence]|]
  end.
  reflexivity.
Qed.

End HistoryFacts.

(* ===================================================================== *)
(** ** Edge behaviour of the control signal *)
(* ===================================================================== *)

Module SignalEdgeFacts.

Import Binary64 FloatFacts SignalFacts.
Local Open Scope py_scope.

Section Generic.

Context {F : Type} {num : PyNum F}.

(** [control_signal] raises only when it has to take the largest of no
    sample.  On an empty sample set the variants that look at the span raise
    [ValueError] (from [t.max()] of an empty array): the step variant with
    [step_time] unset, and the impulse, ramp and sine variants; the step
    variant with [step_time] given, "none" and every unknown type return the
    empty signal.  On a non-empty sample set no variant raises, and the
    signal has one value per sample. *)
Theorem control_signal_raises_only_on_empty (s : string) (amp freq x : F)
    (st : option F) (t0 : F) (ts : list F) :
  control_signal [] "step" amp freq None = Raise ValueError
  /\ control_signal [] "step" amp freq (Some x) = Ok []
  /\ control_signal [] "impulse" amp freq st = Raise ValueError
  /\ control_signal [] "ramp" amp freq st = Raise ValueError
  /\ control_signal [] "sin" amp freq st = Raise ValueError
  /\ (s <> "step" -> s <> "impulse" -> s <> "ramp" -> s <> "sin" ->
      control_signal [] s amp freq st = Ok [])
  /\ exists r, control_signal (t0 :: ts) s amp freq st = Ok r
               /\ List.length r = S (List.length ts).
Proof.
  repeat split; try reflexivity.
  - destruct st; reflexivity.
  - intros H1 H2 H3 H4. apply String.eqb_neq in H1, H2, H3, H4.
    unfold control_signal. rewrite H1, H2, H3, H4. reflexivity.
  - destruct (control_signal_returns t0 ts s amp freq st) as [r E].
    exists r. split; [exact E|].
    apply control_signal_length in E. exact E.
Qed.

End Generic.

Local Open Scope float_scope.

Section Machine.

Context {M : Libm}.

(** Inside [sir_ode] the signal is evaluated on the one-sample set [[t]],
    where the span is zero: with [step_time] unset the step variant then
    switches at 0, so for every finite [t] it acts as [step_time = 0] (the
    raised rate from time 0 on), whatever the horizon of the simulation. *)
Theorem step_unset_acts_as_zero_in_ode (y : state)
    (t beta gamma N amp freq : float) :
  finite t = true ->
  control_signal [t] "step" amp freq None
  = Ok [if 0 <=? t then 1 + amp else 1]
  /\ sir_ode y t beta gamma N "step" amp freq None
     = sir_ode y t beta gamma N "step" amp freq (Some 0).
Proof.
  intro Ht.
  assert (E : control_signal [t] "step" amp freq None
              = control_signal [t] "step" amp freq (Some 0)).
  { unfold control_signal; cbn. rewrite (sub_diag t Ht). reflexivity. }
  split.
  - rewrite E. reflexivity.
  - destruct y as [[S_ I_] R_]. unfold sir_ode. rewrite E. reflexivity.
Qed.



End Machine.

Section Examples.

#[local] Existing Instance ref_libm.

Lemma step_unset_acts_as_zero_in_ode_witness :
  control_signal [30] "step" 0.5 1 None
  = Ok [if 0 <=? 30 then 1 + 0.5 else 1]
  /\ sir_ode (990, 10, 0) 30 0.3 0.1 1000 "step" 0.5 1 None
     = sir_ode (990, 10, 0) 30 0.3 0.1 1000 "step" 0.5 1 (Some 0).
Proof.
  refine (step_unset_acts_as_zero_in_ode (990, 10, 0) 30 0.3 0.1 1000 0.5 1
            _).
  reflexivity.
Defined.

(** The series [simulate_sir] returns for the same run switches at half the
    horizon instead: at day 30 of 100 it is still 1. *)
Example step_unset_series_differs :
  control_signal [0; 30; 100] "step" 0.5 1 None = Ok [1; 1; 1.5]
  /\ control_signal [30] "step" 0.5 1 None = Ok [1.5].
Proof. split; reflexivity. Qed.

End Examples.

End SignalEdgeFacts.

(* ===================================================================== *)
(** ** The control signal and the model in exact arithmetic *)
(* ===================================================================== *)

Module IdealSignalFacts.

Import Ideal SignalFacts.
Local Open Scope py_scope.
Local Open Scope R_scope.

Lemma Rleb_true (a b : R) : Rleb a b = true <-> a <= b.
Proof. unfold Rleb. destruct (Rle_dec a b); split; intros; try easy. Qed.

Lemma Rleb_false (a b : R) : Rleb a b = false <-> b < a.
Proof.
  unfold Rleb. destruct (Rle_dec a b); split; intros; try easy; lra.
Qed.

Lemma Rltb_true (a b : R) : Rltb a b = true <-> a < b.
Proof. unfold Rltb. destruct (Rlt_dec a b); split; intros; try easy. Qed.

(** [ndarray.min()] over the reals is the least sample. *)
Lemma np_min_least (x : R) (xs : list R) :
  exists m, np_min (x :: xs) = Ok m /\ In m (x :: xs)
            /\ forall y, In y (x :: xs) -> m <= y.
Proof.
  unfold np_min. eexists. split; [reflexivity|].
  revert x. induction xs as [|z xs IH]; intro x; cbn [fold_left].
  - split; [left; reflexivity|]. intros y [<-|[]]; lra.
  - change (le x z) with (Rleb x z). change (isnan x) with false.
    rewrite orb_false_r. destruct (Rleb x z) eqn:E.
    + apply Rleb_true in E. destruct (IH x) as [Hin Hle]. split.
      * destruct Hin as [Hin|Hin]; [left; exact Hin | right; right; exact Hin].
      * intros y [<-|[<-|Hy]].
        -- apply Hle; left; reflexivity.
        -- specialize (Hle x (or_introl eq_refl)). lra.
        -- apply Hle; right; exact Hy.
    + apply Rleb_false in E. destruct (IH z) as [Hin Hle]. split.
      * right; exact Hin.
      * intros y [<-|[<-|Hy]].
        -- specialize (Hle z (or_introl eq_refl)). lra.
        -- apply Hle; left; reflexivity.
        -- apply Hle; right; exact Hy.
Qed.

Lemma np_max_greatest (x : R) (xs : list R) :
  exists m, np_max (x :: xs) = Ok m /\ In m (x :: xs)
            /\ forall y, In y (x :: xs) -> y <= m.
Proof.
  unfold np_max. eexists. split; [reflexivity|].
  revert x. induction xs as [|z xs IH]; intro x; cbn [fold_left].
  - split; [left; reflexivity|]. intros y [<-|[]]; lra.
  - change (le z x) with (Rleb z x). change (isnan x) with false.
    rewrite orb_false_r. destruct (Rleb z x) eqn:E.
    + apply Rleb_true in E. destruct (IH x) as [Hin Hle]. split.
      * destruct Hin as [Hin|Hin]; [left; exact Hin | right; right; exact Hin].
      * intros y [<-|[<-|Hy]].
        -- apply Hle; left; reflexivity.
        -- specialize (Hle x (or_introl eq_refl)). lra.
        -- apply Hle; right; exact Hy.
    + apply Rleb_false in E. destruct (IH z) as [Hin Hle]. split.
      * right; exact Hin.
      * intros y [<-|[<-|Hy]].
        -- specialize (Hle z (or_introl eq_refl)). lra.
        -- apply Hle; left; reflexivity.
        -- apply Hle; right; exact Hy.
Qed.

(** In exact arithmetic, on samples that are not all equal, the ramp is 1
    at the least sample and [1 + amp] at the greatest, and for [amp >= 0] it
    does not decrease from one sample to a later-valued one. *)
Theorem ramp_endpoints_and_order (t0 : R) (ts : list R) (amp freq : R)
    (st : option R) (tmin tmax : R) :
  np_min (t0 :: ts) = Ok tmin -> np_max (t0 :: ts) = Ok tmax ->
  tmin <> tmax ->
  exists r,
    control_signal (t0 :: ts) "ramp" amp freq st = Ok r
    /\ (forall i, nth_error (t0 :: ts) i = Some tmin -> nth_error r i = Some 1)
    /\ (forall i, nth_error (t0 :: ts) i = Some tmax ->
                  nth_error r i = Some (1 + amp))
    /\ (0 <= amp ->
        forall i j a b ua ub,
          nth_error (t0 :: ts) i = Some a -> nth_error (t0 :: ts) j = Some b ->
          nth_error r i = Some ua -> nth_error r j = Some ub ->
          a <= b -> 1 <= ua <= ub /\ ub <= 1 + amp).
Proof.
  intros Emin Emax Hne.
  destruct (np_min_least t0 ts) as [m [Em [Hmin Hleast]]].
  destruct (np_max_greatest t0 ts) as [g [Eg [Hmax Hgreat]]].
  rewrite Emin in Em. injection Em as <-.
  rewrite Emax in Eg. injection Eg as <-.
  assert (Hspan : 0 < tmax - tmin).
  { specialize (Hleast tmax Hmax). lra. }
  unfold control_signal. cbn [String.eqb Ascii.eqb Bool.eqb].
  rewrite Emin, Emax. cbn [bind]. eexists. split; [reflexivity|].
  split; [|split].
  - intros i Hi. rewrite nth_error_map, Hi. cbn. f_equal. field. lra.
  - intros i Hi. rewrite nth_error_map, Hi. cbn. f_equal. field. lra.
  - intros Hamp i j a b ua ub Ha Hb Hua Hub Hab.
    rewrite nth_error_map, Ha in Hua. rewrite nth_error_map, Hb in Hub.
    cbn in Hua, Hub. injection Hua as <-. injection Hub as <-.
    pose proof (Hleast a (nth_error_In _ _ Ha)) as La.
    pose proof (Hgreat b (nth_error_In _ _ Hb)) as Gb.
    assert (Hinv : 0 < / (tmax - tmin)) by (apply Rinv_0_lt_compat; lra).
    unfold Rdiv.
    assert (H1 : 0 <= (a - tmin) * / (tmax - tmin))
      by (apply Rmult_le_pos; lra).
    assert (H2 : (a - tmin) * / (tmax - tmin) <= (b - tmin) * / (tmax - tmin))
      by (apply Rmult_le_compat_r; lra).
    assert (H3 : (b - tmin) * / (tmax - tmin) <= 1).
    { apply Rmult_le_reg_r with (tmax - tmin); [lra|].
      rewrite Rmult_assoc, Rinv_l by lra. lra. }
    repeat split; nra.
Qed.

(** In exact arithmetic and for [amp >= 0], every value of the "none",
    step, impulse and sine signals lies between [1 - amp] and [1 + amp]. *)
Theorem signal_within_amplitude (t0 : R) (ts : list R) (s : string)
    (amp freq : R) (st : option R) :
  0 <= amp -> s <> "ramp" ->
  exists r,
    control_signal (t0 :: ts) s amp freq st = Ok r
    /\ forall u, In u r -> 1 - amp <= u <= 1 + amp.
Proof.
  intros Hamp Hs. apply String.eqb_neq in Hs.
  destruct (np_min_least t0 ts) as [m [Em _]].
  destruct (np_max_greatest t0 ts) as [g [Eg _]].
  unfold control_signal. rewrite Em, Eg, Hs.
  destruct (s =? "step")%string.
  { destruct st; cbn [bind]; eexists; (split; [reflexivity|]);
      intros u Hu; apply in_map_iff in Hu; destruct Hu as [ti [<- _]];
      cbn; match goal with |- context [if ?b then _ else _] => destruct b end;
      lra. }
  destruct (s =? "impulse")%string.
  { destruct st; cbn [bind]; eexists; (split; [reflexivity|]);
      intros u Hu; apply in_map_iff in Hu; destruct Hu as [ti [<- _]];
      cbn;
      match goal with
      | |- _ <= 1 + amp * exp ?x <= _ =>
          assert (Hx : x <= 0) by
            (match goal with
             | |- - (1 / 2) * (?q * ?q) <= 0 =>
                 pose proof (Rle_0_sqr q) as Hq; unfold Rsqr in Hq; nra
             end);
          pose proof (exp_pos x) as Hp;
          assert (He : exp x <= 1)
            by (destruct Hx as [Hx|Hx];
                [ pose proof (exp_increasing x 0 Hx) as Hi;
                  rewrite exp_0 in Hi; lra
                | rewrite Hx, exp_0; lra ]);
          nra
      end. }
  destruct (s =? "sin")%string.
  { cbn [bind]. eexists. split; [reflexivity|].
    intros u Hu. apply in_map_iff in Hu. destruct Hu as [ti [<- _]]. cbn.
    match goal with
    | |- _ <= 1 + amp * sin ?x <= _ => pose proof (SIN_bound x) as Hb; nra
    end. }
  eexists. split; [reflexivity|].
  intros u Hu. apply in_map_iff in Hu. destruct Hu as [ti [<- _]]. cbn. lra.
Qed.

(** The control value [sir_ode] computes at its one time point, in exact
    arithmetic: not negative as long as [amp >= -1]. *)
Lemma single_point_signal_nonneg (t amp freq : R) (s : string)
    (st : option R) :
  s <> "ramp" -> -1 <= amp ->
  exists u, control_signal [t] s amp freq st = Ok [u] /\ 0 <= u.
Proof.
  intros Hs Hamp. apply String.eqb_neq in Hs.
  unfold control_signal. rewrite Hs. cbn [np_max np_min fold_left bind map].
  destruct (s =? "step")%string.
  { destruct st; cbn [bind]; eexists; (split; [reflexivity|]); cbn;
      match goal with |- context [if ?b then _ else _] => destruct b end;
      lra. }
  destruct (s =? "impulse")%string.
  { destruct st; cbn [bind]; eexists; (split; [reflexivity|]); cbn;
      match goal with
      | |- 0 <= 1 + amp * exp ?x =>
          assert (Hx : x <= 0) by
            (match goal with
             | |- - (1 / 2) * (?q * ?q) <= 0 =>
                 pose proof (Rle_0_sqr q) as Hq; unfold Rsqr in Hq; nra
             end);
          pose proof (exp_pos x) as Hp;
          assert (He : exp x <= 1)
            by (destruct Hx as [Hx|Hx];
                [ pose proof (exp_increasing x 0 Hx) as Hi;
                  rewrite exp_0 in Hi; lra
                | rewrite Hx, exp_0; lra ]);
          nra
      end. }
  destruct (s =? "sin")%string.
  { eexists. split; [reflexivity|]. cbn.
    replace (2 * PI * freq * (t - t) / py_max 1 (t - t)) with 0
      by (unfold Rdiv; rewrite Rminus_diag; ring).
    rewrite sin_0. lra. }
  eexists. split; [reflexivity|]. cbn. lra.
Qed.

(** In exact arithmetic, with non-negative rates and populations, a
    positive [N] and [amp >= -1], the right-hand side of the model never
    lets S grow or R shrink, and a state without infected is at rest.  (The
    ramp is left out: at one time point it divides zero by zero.) *)
Theorem sir_ode_direction (S_ I_ R_ t beta gamma N amp freq : R)
    (s : string) (st : option R) :
  s <> "ramp" -> -1 <= amp -> 0 <= beta -> 0 <= gamma -> 0 < N ->
  0 <= S_ -> 0 <= I_ ->
  exists dS dI dR,
    sir_ode (S_, I_, R_) t beta gamma N s amp freq st = Ok (dS, dI, dR)
    /\ dS <= 0 /\ 0 <= dR
    /\ (I_ = 0 -> dS = 0 /\ dI = 0 /\ dR = 0)
    /\ (S_ = 0 -> dS = 0 /\ dI <= 0).
Proof.
  intros Hs Hamp Hb Hg HN HS HI.
  destruct (single_point_signal_nonneg t amp freq s st Hs Hamp)
    as [u [Eu Hu]].
  unfold sir_ode. rewrite Eu. cbn [bind item nth_error].
  do 3 eexists. split; [reflexivity|]. cbn.
  assert (Hinv : 0 < / N) by (apply Rinv_0_lt_compat; exact HN).
  assert (Hbu : 0 <= beta * u) by (apply Rmult_le_pos; assumption).
  assert (Hbs : 0 <= beta * u * S_) by (apply Rmult_le_pos; assumption).
  assert (Hbi : 0 <= beta * u * S_ * I_) by (apply Rmult_le_pos; assumption).
  assert (Hq : 0 <= beta * u * S_ * I_ * / N)
    by (apply Rmult_le_pos; lra).
  unfold Rdiv. split; [|split; [|split]].
  - replace (- (beta * u) * S_ * I_ * / N)
      with (- (beta * u * S_ * I_ * / N)) by ring. lra.
  - apply Rmult_le_pos; assumption.
  - intros ->. repeat split; ring.
  - intros ->. split; [ring|].
    replace (beta * u * 0 * I_ * / N - gamma * I_) with (- (gamma * I_))
      by ring.
    assert (0 <= gamma * I_) by (apply Rmult_le_pos; assumption). lra.
Qed.

Lemma np_min_two (a b : R) : a <= b -> np_min [a; b] = Ok a.
Proof.
  intro H. unfold np_min. cbn [fold_left].
  change (le a b) with (Rleb a b). rewrite (proj2 (Rleb_true a b) H).
  reflexivity.
Qed.

Lemma np_max_two (a b : R) : a < b -> np_max [a; b] = Ok b.
Proof.
  intro H. unfold np_max. cbn [fold_left].
  change (le b a) with (Rleb b a). rewrite (proj2 (Rleb_false b a) H).
  reflexivity.
Qed.

Lemma ramp_endpoints_and_order_witness :
  exists r,
    control_signal [0; 10] "ramp" (1 / 2) 1 None = Ok r
    /\ (forall i, nth_error [0; 10] i = Some 0 -> nth_error r i = Some 1)
    /\ (forall i, nth_error [0; 10] i = Some 10 ->
                  nth_error r i = Some (1 + 1 / 2))
    /\ (0 <= 1 / 2 ->
        forall i j a b ua ub,
          nth_error [0; 10] i = Some a -> nth_error [0; 10] j = Some b ->
          nth_error r i = Some ua -> nth_error r j = Some ub ->
          a <= b -> 1 <= ua <= ub /\ ub <= 1 + 1 / 2).
Proof.
  refine (ramp_endpoints_and_order 0 [10] (1 / 2) 1 None 0 10 _ _ _).
  - apply np_min_two. lra.
  - apply np_max_two. lra.
  - lra.
Defined.

Lemma signal_within_amplitude_witness :
  exists r,
    control_signal [0; 10] "sin" (1 / 2) 1 None = Ok r
    /\ forall u, In u r -> 1 - 1 / 2 <= u <= 1 + 1 / 2.
Proof.
  refine (signal_within_amplitude 0 [10] "sin" (1 / 2) 1 None _ _).
  - lra.
  - discriminate.
Defined.

Lemma sir_ode_direction_witness :
  exists dS dI dR,
    sir_ode (990, 10, 0) 5 (3 / 10) (1 / 10) 1000 "impulse" (1 / 2) 1 None
    = Ok (dS, dI, dR)
    /\ dS <= 0 /\ 0 <= dR
    /\ (10 = 0 -> dS = 0 /\ dI = 0 /\ dR = 0)
    /\ (990 = 0 -> dS = 0 /\ dI <= 0).
Proof.
  refine (sir_ode_direction 990 10 0 5 (3 / 10) (1 / 10) 1000 (1 / 2) 1
            "impulse" None _ _ _ _ _ _ _); try lra.
  discriminate.
Defined.

End IdealSignalFacts.

(* ===================================================================== *)
(** ** The narrative of the summary *)
(* ===================================================================== *)

Module NarrativeFacts.

Import Binary64 FloatFacts Summary Narrative SummaryFacts.
Local Open Scope float_scope.
Local Open Scope py_scope.

(** A comparison that holds has no NaN on either side. *)
Lemma ltb_not_nan (x y : float) :
  (x <? y) = true -> is_nan x = false /\ is_nan y = false.
Proof.
  rewrite ltb_spec. intro H.
  split; apply not_nan_spec; intro E; rewrite E in H;
    [|destruct (Prim2SF x) as [[]|[]| |[] m e]]; discriminate H.
Qed.

Lemma leb_not_nan (x y : float) :
  (x <=? y) = true -> is_nan x = false /\ is_nan y = false.
Proof.
  rewrite leb_spec. intro H.
  split; apply not_nan_spec; intro E; rewrite E in H;
    [|destruct (Prim2SF x) as [[]|[]| |[] m e]]; discriminate H.
Qed.

Lemma leb_total (x y : float) :
  is_nan x = false -> is_nan y = false ->
  (y <=? x) = false -> (x <=? y) = true.
Proof.
  intros Hx Hy Hn. apply leb_key; try assumption. intro Hk.
  assert (Hyx : (y <=? x) = true).
  { apply leb_key; try assumption. by_keys x y x. }
  congruence.
Qed.

(** The upper test of the moderate tier is implied by the failed test of
    the fast tier. *)
Lemma moderate_test (r : float) :
  (1.5 <? r) = false -> ((1.0 <? r) && (r <=? 1.5))%bool = (1.0 <? r).
Proof.
  intro H15. destruct (1.0 <? r) eqn:H1; [|reflexivity].
  destruct (ltb_not_nan _ _ H1) as [_ Hr].
  rewrite (not_ltb_leb 1.5 r eq_refl Hr H15). reflexivity.
Qed.

Lemma fmax_scan (xs : list float) :
  forall (a : float) (seen : list float),
    running_max a seen -> running_max (fold_left fmax xs a) (seen ++ xs).
Proof.
  induction xs as [|b xs IH]; intros a seen Ha; cbn [fold_left].
  - rewrite app_nil_r. exact Ha.
  - replace (seen ++ b :: xs) with ((seen ++ [b]) ++ xs)
      by (rewrite <- app_assoc; reflexivity).
    apply IH. destruct Ha as [Hin [Hnan Hmax]]. unfold fmax.
    destruct (b <=? a) eqn:Hba; cbn [orb].
    + destruct (leb_not_nan _ _ Hba) as [Nb Na]. repeat split.
      * apply in_or_app. left. exact Hin.
      * congruence.
      * intros y Hy Ny. apply in_app_or in Hy. destruct Hy as [Hy|[<-|[]]].
        -- apply Hmax; assumption.
        -- exact Hba.
    + destruct (is_nan b) eqn:Nb.
      * repeat split.
        -- apply in_or_app. left. exact Hin.
        -- intros Na y Hy. apply in_app_or in Hy.
           destruct Hy as [Hy|[<-|[]]]; [apply Hnan; assumption | exact Nb].
        -- intros y Hy Ny. apply in_app_or in Hy.
           destruct Hy as [Hy|[<-|[]]]; [apply Hmax; assumption | congruence].
      * repeat split.
        -- apply in_or_app. right. left. reflexivity.
        -- congruence.
        -- intros y Hy Ny. apply in_app_or in Hy.
           destruct Hy as [Hy|[<-|[]]]; [|apply leb_refl; exact Nb].
           destruct (is_nan a) eqn:Na.
           ++ rewrite (Hnan eq_refl y Hy) in Ny. discriminate.
           ++ apply (leb_trans y a b Ny Na Nb); [apply Hmax; assumption|].
              apply leb_total; assumption.
Qed.

Lemma np_nanmax_greatest (u0 : float) (u : list float) :
  exists m, np_nanmax (u0 :: u) = Ok m /\ running_max m (u0 :: u).
Proof.
  eexists. split; [reflexivity|].
  apply (fmax_scan u u0 [u0]). repeat split.
  - left. reflexivity.
  - intros Hn y [<-|[]]. exact Hn.
  - intros y [<-|[]] Ny. apply leb_refl. exact Ny.
Qed.

(** The lines of the narrative on finite statistics, with the three
    sentences that depend on a test spelled out. *)
Lemma summary_lines_tests (beta gamma N I0 R0 : float) (days : Z)
    (st : stats) (u0 : float) (u : list float) (s : string) :
  finite N = true -> finite I0 = true -> finite R0 = true ->
  finite (peak_I st) = true -> finite (final_S st) = true ->
  finite (final_I st) = true -> finite (final_R st) = true ->
  exists l1 l2 l3 l4,
    summary_lines beta gamma N I0 R0 days st (u0 :: u) s
    = Ok [ l1; l2; l3; l4;
           (if 1.5 <? R0_basic beta gamma then interp_fast
            else if 1.0 <? R0_basic beta gamma then interp_moderate
                 else interp_declining);
           signal_line s (u0 :: u) (fold_left fmax u u0);
           (if 1.5 <? R0_basic beta gamma then advice_intervene
            else advice_observe) ].
Proof.
  intros FN FI0 FR0 Fp FS FI FR. unfold summary_lines, signal_line.
  destruct (py_int_finite N FN) as [n ->].
  destruct (py_int_finite I0 FI0) as [i0 ->].
  destruct (py_int_finite R0 FR0) as [r0 ->].
  destruct (py_round_finite _ Fp) as [p ->].
  destruct (py_round_finite _ FS) as [fs ->].
  destruct (py_round_finite _ FI) as [fi ->].
  destruct (py_round_finite _ FR) as [fr ->].
  cbn [bind].
  destruct (1.5 <? R0_basic beta gamma) eqn:H15.
  - destruct (negb (s =? "")%string && negb (s =? "none")%string)%bool.
    + unfold np_nanmax. cbn [bind].
      destruct (1.05 <? fold_left fmax u u0); cbn [bind]; eauto 10.
    + cbn [bind]. eauto 10.
  - rewrite (moderate_test _ H15).
    destruct (negb (s =? "")%string && negb (s =? "none")%string)%bool.
    + unfold np_nanmax. cbn [bind].
      destruct (1.05 <? fold_left fmax u u0); cbn [bind]; eauto 10.
    + cbn [bind]. eauto 10.
Qed.

(** The narrative of a valid run. *)
Lemma summary_of_valid_run (beta gamma N I0 R0 : float) (days : Z)
    (t S I R u : list float) (s : string) :
  valid_run N I0 R0 t S I R u = true ->
  exists u0 u' l1 l2 l3 l4 st,
    u = u0 :: u'
    /\ generate_summary beta gamma N I0 R0 days t S I R u s
       = Ok (join (Lit " ")
               [ l1; l2; l3; l4;
                 (if 1.5 <? R0_basic beta gamma then interp_fast
                  else if 1.0 <? R0_basic beta gamma then interp_moderate
                       else interp_declining);
                 signal_line s u (fold_left fmax u' u0);
                 (if 1.5 <? R0_basic beta gamma then advice_intervene
                  else advice_observe) ],
             st).
Proof.
  intro Hv.
  destruct (basic_stats_valid N I0 R0 t S I R u Hv)
    as [st [Est [_ [_ [_ [_ [Fp [FS [FI FR]]]]]]]]].
  assert (Hu : u <> []).
  { unfold valid_run in Hv. split_andb.
    eapply length_pos_nonempty; eassumption. }
  assert (FN : finite N = true /\ finite I0 = true /\ finite R0 = true).
  { unfold valid_run in Hv. split_andb. auto. }
  destruct FN as [FN [FI0 FR0]].
  destruct u as [|u0 u']; [congruence|].
  destruct (summary_lines_tests beta gamma N I0 R0 days st u0 u' s
              FN FI0 FR0 Fp FS FI FR) as [l1 [l2 [l3 [l4 El]]]].
  unfold generate_summary. rewrite Est. cbn [bind]. rewrite El. cbn [bind].
  exists u0, u', l1, l2, l3, l4, st. split; reflexivity.
Qed.

(** The narrative sorts every valid run into exactly one of three tiers by
    the reproduction number R0_basic alone: above 1.5 the fast tier with
    the advice to intervene; above 1 and not above 1.5 the moderate tier;
    otherwise (R0_basic at most 1, or NaN) the declining tier; the last two
    with the advice to observe.  The advice to intervene goes with the fast
    tier and with no other. *)
Theorem summary_tier_by_reproduction_number
    (beta gamma N I0 R0 : float) (days : Z)
    (t S I R u : list float) (s : string) :
  valid_run N I0 R0 t S I R u = true ->
  let r := R0_basic beta gamma in
  exists l1 l2 l3 l4 l6 st tier advice,
    generate_summary beta gamma N I0 R0 days t S I R u s
    = Ok (join (Lit " ") [l1; l2; l3; l4; tier; l6; advice], st)
    /\ ((1.5 <? r) = true ->
        tier = interp_fast /\ advice = advice_intervene)
    /\ ((1.5 <? r) = false -> (1.0 <? r) = true ->
        tier = interp_moderate /\ advice = advice_observe
        /\ (r <=? 1.5) = true)
    /\ ((1.0 <? r) = false -> (1.5 <? r) = false ->
        tier = interp_declining /\ advice = advice_observe)
    /\ (is_nan r = true ->
        tier = interp_declining /\ advice = advice_observe)
    /\ (advice = advice_intervene <-> tier = interp_fast).
Proof.
  intros Hv r.
  destruct (summary_of_valid_run beta gamma N I0 R0 days t S I R u s Hv)
    as [u0 [u' [l1 [l2 [l3 [l4 [st [_ E]]]]]]]].
  fold r in E.
  exists l1, l2, l3, l4, (signal_line s u (fold_left fmax u' u0)), st.
  do 2 eexists. split; [exact E|].
  assert (Hnan : is_nan r = true -> (1.5 <? r) = false /\ (1.0 <? r) = false).
  { intro Hn. split.
    - destruct (1.5 <? r) eqn:H; [|reflexivity].
      destruct (ltb_not_nan _ _ H). congruence.
    - destruct (1.0 <? r) eqn:H; [|reflexivity].
      destruct (ltb_not_nan _ _ H). congruence. }
  repeat split.
  - rewrite H. reflexivity.
  - rewrite H. reflexivity.
  - rewrite H, H0. reflexivity.
  - rewrite H. reflexivity.
  - destruct (ltb_not_nan _ _ H0) as [_ Hr].
    apply (not_ltb_leb 1.5 r eq_refl Hr H).
  - rewrite H0, H. reflexivity.
  - rewrite H0. reflexivity.
  - destruct (Hnan H) as [-> ->]. reflexivity.
  - destruct (Hnan H) as [-> _]. reflexivity.
  - destruct (1.5 <? r); [reflexivity | discriminate].
  - destruct (1.5 <? r); [reflexivity|].
    destruct (1.0 <? r); discriminate.
Qed.

Lemma summary_tier_by_reproduction_number_witness :
  let r := R0_basic 0.12 0.1 in
  exists l1 l2 l3 l4 l6 st tier advice,
    generate_summary 0.12 0.1 1000 10 0 3 [0; 1; 2; 3] [990; 700; 400; 300]
                     [10; 250; 250; 100] [0; 0; 0; 0] [1; 1; 1.5; 1.5] "step"
    = Ok (join (Lit " ") [l1; l2; l3; l4; tier; l6; advice], st)
    /\ ((1.5 <? r) = true ->
        tier = interp_fast /\ advice = advice_intervene)
    /\ ((1.5 <? r) = false -> (1.0 <? r) = true ->
        tier = interp_moderate /\ advice = advice_observe
        /\ (r <=? 1.5) = true)
    /\ ((1.0 <? r) = false -> (1.5 <? r) = false ->
        tier = interp_declining /\ advice = advice_observe)
    /\ (is_nan r = true ->
        tier = interp_declining /\ advice = advice_observe)
    /\ (advice = advice_intervene <-> tier = interp_fast).
Proof.
  refine (summary_tier_by_reproduction_number 0.12 0.1 1000 10 0 3
            [0; 1; 2; 3] [990; 700; 400; 300] [10; 250; 250; 100]
            [0; 0; 0; 0] [1; 1; 1.5; 1.5] "step" _).
  reflexivity.
Defined.

(** The three tiers at work, and a NaN rate. *)
Example tiers_at_work :
  (1.5 <? R0_basic 0.3 0.1) = true
  /\ (1.5 <? R0_basic 0.12 0.1) = false
  /\ (1.0 <? R0_basic 0.12 0.1) = true
  /\ (1.0 <? R0_basic 0.1 0.1) = false
  /\ is_nan (R0_basic nan 0.1) = true.
Proof. repeat split; reflexivity. Qed.

(** The sentence on the control signal: a run with signal type "none" (or
    the empty text) gets the fixed no-signal sentence; any other signal
    type gets the sentence with the largest control value when that value
    exceeds 1.05, and the one with the mean control value otherwise.  The
    largest value reported is an entry of [u] that no entry of [u] which is a
    number exceeds. *)
Theorem summary_reports_largest_control_value
    (beta gamma N I0 R0 : float) (days : Z)
    (t S I R u : list float) (s : string) :
  valid_run N I0 R0 t S I R u = true ->
  exists m l1 l2 l3 l4 l5 l7 st,
    np_nanmax u = Ok m
    /\ In m u
    /\ (forall y, In y u -> is_nan y = false -> (y <=? m) = true)
    /\ generate_summary beta gamma N I0 R0 days t S I R u s
       = Ok (join (Lit " ")
               [l1; l2; l3; l4; l5;
                (if (s =? "")%string || (s =? "none")%string then no_signal
                 else if 1.05 <? m then
                   [Lit "Efek sinyal ("; Lit s;
                    Lit "): sinyal meningkatkan β sementara (max factor ";
                    Fmt2f m; Lit "), mempengaruhi kurva I(t)."]
                 else
                   [Lit "Efek sinyal ("; Lit s;
                    Lit "): perubahan β relatif kecil (rata-rata faktor ";
                    Fmt2f (np_nanmean u); Lit ")."]);
                l7], st).
Proof.
  intro Hv.
  destruct (summary_of_valid_run beta gamma N I0 R0 days t S I R u s Hv)
    as [u0 [u' [l1 [l2 [l3 [l4 [st [-> E]]]]]]]].
  destruct (np_nanmax_greatest u0 u') as [m [Em [Hin [_ Hmax]]]].
  assert (Hm : m = fold_left fmax u' u0) by (cbn in Em; congruence).
  exists m, l1, l2, l3, l4. do 2 eexists. exists st.
  split; [exact Em|]. split; [exact Hin|]. split; [exact Hmax|].
  rewrite E. unfold signal_line. rewrite <- Hm.
  destruct (s =? "")%string; [reflexivity|].
  destruct (s =? "none")%string; reflexivity.
Qed.

Lemma summary_reports_largest_control_value_witness :
  exists m l1 l2 l3 l4 l5 l7 st,
    np_nanmax [1; nan; 1.5; 1.5] = Ok m
    /\ In m [1; nan; 1.5; 1.5]
    /\ (forall y, In y [1; nan; 1.5; 1.5] -> is_nan y = false ->
                  (y <=? m) = true)
    /\ generate_summary 0.3 0.1 1000 10 0 3 [0; 1; 2; 3]
                        [990; 700; 400; 300] [10; 250; 250; 100]
                        [0; 0; 0; 0] [1; nan; 1.5; 1.5] "step"
       = Ok (join (Lit " ")
               [l1; l2; l3; l4; l5;
                (if ("step" =? "")%string || ("step" =? "none")%string
                 then no_signal
                 else if 1.05 <? m then
                   [Lit "Efek sinyal ("; Lit "step";
                    Lit "): sinyal meningkatkan β sementara (max factor ";
                    Fmt2f m; Lit "), mempengaruhi kurva I(t)."]
                 else
                   [Lit "Efek sinyal ("; Lit "step";
                    Lit "): perubahan β relatif kecil (rata-rata faktor ";
                    Fmt2f (np_nanmean [1; nan; 1.5; 1.5]); Lit ")."]);
                l7], st).
Proof.
  refine (summary_reports_largest_control_value 0.3 0.1 1000 10 0 3
            [0; 1; 2; 3] [990; 700; 400; 300] [10; 250; 250; 100]
            [0; 0; 0; 0] [1; nan; 1.5; 1.5] "step" _).
  reflexivity.
Defined.

(** What [generate_summary] rejects: an infected series that is empty or
    all NaN raises [ValueError]; with statistics that can be taken, a NaN
    population raises [ValueError] and an infinite one [OverflowError]
    (both from [int(N)]). *)
Theorem summary_rejects_unusable_input
    (beta gamma N I0 R0 : float) (days : Z)
    (t S I R u : list float) (s : string) (st : stats) :
  basic_stats t S I R = Ok st ->
  (forall t' S' I' R',
     forallb is_nan I' = true ->
     generate_summary beta gamma N I0 R0 days t' S' I' R' u s
     = Raise ValueError)
  /\ (is_nan N = true ->
      generate_summary beta gamma N I0 R0 days t S I R u s
      = Raise ValueError)
  /\ (N = infinity \/ N = neg_infinity ->
      generate_summary beta gamma N I0 R0 days t S I R u s
      = Raise OverflowError).
Proof.
  intro Est. split; [|split].
  - intros t' S' I' R' Hn. unfold generate_summary, basic_stats, np_nanargmax.
    destruct I' as [|x I']; [reflexivity|]. rewrite Hn. reflexivity.
  - intro Hn. unfold generate_summary. rewrite Est. cbn [bind].
    unfold summary_lines, py_int. apply is_nan_spec in Hn. rewrite Hn.
    reflexivity.
  - intros [-> | ->]; unfold generate_summary; rewrite Est; reflexivity.
Qed.

Lemma summary_rejects_unusable_input_witness :
  (forall t' S' I' R',
     forallb is_nan I' = true ->
     generate_summary 0.3 0.1 infinity 10 0 3 t' S' I' R' [1; 1; 1; 1] "none"
     = Raise ValueError)
  /\ (is_nan infinity = true ->
      generate_summary 0.3 0.1 infinity 10 0 3 [0; 1; 2; 3]
                       [990; 700; 400; 300] [10; 250; 250; 100] [0; 0; 0; 0]
                       [1; 1; 1; 1] "none"
      = Raise ValueError)
  /\ (infinity = infinity \/ infinity = neg_infinity ->
      generate_summary 0.3 0.1 infinity 10 0 3 [0; 1; 2; 3]
                       [990; 700; 400; 300] [10; 250; 250; 100] [0; 0; 0; 0]
                       [1; 1; 1; 1] "none"
      = Raise OverflowError).
Proof.
  refine (summary_rejects_unusable_input 0.3 0.1 infinity 10 0 3
            [0; 1; 2; 3] [990; 700; 400; 300] [10; 250; 250; 100]
            [0; 0; 0; 0] [1; 1; 1; 1] "none"
            {| peak_I := 250; peak_day := 1; final_S := 300;
               final_I := 100; final_R := 0 |} _).
  reflexivity.
Defined.

End NarrativeFacts.

(* ===================================================================== *)
(** ** The history store: appending and looking up *)
(* ===================================================================== *)

Module StoreFacts.

Import Binary64 FloatFacts History Store HistoryFacts.
Local Open Scope float_scope.

(** A NaN is the NaN. *)
Lemma is_nan_eq (x : float) : is_nan x = true -> x = nan.
Proof.
  intro H. apply Prim2SF_inj. apply is_nan_spec in H. rewrite H. reflexivity.
Qed.

(** A number survives the trip through the file. *)
Lemma reload_float (x : float) : reload (CFloat x) = CFloat x.
Proof.
  unfold reload, write_cell. destruct (is_nan x) eqn:E; [|reflexivity].
  rewrite (is_nan_eq x E). reflexivity.
Qed.

(** Reading is stable: a field written back and read again gives the value
    read the first time. *)
Lemma read_write_read (f : field) :
  read_field (write_cell (read_field f)) = read_field f.
Proof.
  destruct f as [s|x|z]; try reflexivity.
  - assert (Er : read_field (FText s)
                 = if existsb (String.eqb s) na_values
                   then CFloat nan else CStr s) by reflexivity.
    rewrite Er. destruct (existsb (String.eqb s) na_values) eqn:E.
    + reflexivity.
    + unfold write_cell, read_field. rewrite E. reflexivity.
  - apply reload_float.
Qed.

(** Only the text [entry_id] itself reads as the id [entry_id]. *)
Lemma cell_is_read (entry_id : string) (f : field) :
  cell_is entry_id (read_field f) = true -> f = FText entry_id.
Proof.
  destruct f as [s|x|z]; [|intro H; discriminate H..].
  unfold read_field.
  destruct (existsb (String.eqb s) na_values); [intro H; discriminate H|].
  unfold cell_is. intro H. apply String.eqb_eq in H. congruence.
Qed.

(** A row of 18 cells keeps its place under the canonical columns. *)
Lemma align_canonical (row : list cell) :
  List.length row = 18%nat ->
  map (fun k => match lookup k (combine canonical_columns row) with
                | Some c => c
                | None => CFloat nan
                end) canonical_columns = row.
Proof.
  intro L.
  do 18 (destruct row as [|? row]; [discriminate|]).
  destruct row; [reflexivity|discriminate].
Qed.

Lemma ensure_canonical (body : list (list field)) :
  _ensure_history (Some (Table canonical_columns body))
  = Some (Table canonical_columns body).
Proof.
  destruct body as [|row body]; [reflexivity|apply ensure_keeps_records].
Qed.

(** What [save_history_entry] leaves in a canonical file: the lines it
    read, written back, and one new line. *)
Lemma save_on_canonical (body : list (list field)) (entry_id ts : string)
    (beta gamma N I0 R0 : float) (days : Z) (signal_type : string)
    (amp freq : float) (step_time : option float)
    (summary_text : option string)
    (peak_I peak_day final_S final_I final_R : option float) :
  full_rows body ->
  save_history_entry (Some (Table canonical_columns body)) entry_id ts
    beta gamma N I0 R0 days signal_type amp freq step_time summary_text
    peak_I peak_day final_S final_I final_R
  = (Some (Table canonical_columns
             (map (map (fun f => write_cell (read_field f))) body
              ++ [map write_cell
                    (map snd (entry_record entry_id ts beta gamma N I0 R0
                                days signal_type amp freq step_time
                                summary_text peak_I peak_day final_S
                                final_I final_R))])),
     Ok entry_id).
Proof.
  intro Hfull. unfold save_history_entry. rewrite ensure_canonical.
  unfold read_csv, canonical_columns at 1. cbv beta iota.
  unfold to_csv, concat_record. cbn [columns rows].
  set (written := entry_record _ _ _ _ _ _ _ _ _ _ _ _ _ _ _ _ _ _).
  assert (Ecols : canonical_columns
                  ++ filter (fun k => negb (existsb (String.eqb k)
                                                    canonical_columns))
                            (map fst written)
                  = canonical_columns) by reflexivity.
  fold canonical_columns. rewrite Ecols.
  f_equal. f_equal. f_equal.
  rewrite map_app. f_equal.
  - rewrite !map_map. apply map_ext_in. intros row Hrow.
    unfold full_rows in Hfull. rewrite Forall_forall in Hfull.
    rewrite align_canonical by (rewrite length_map; auto).
    rewrite map_map. reflexivity.
Qed.

(** Loading a canonical file gives its lines, read field by field. *)
Lemma load_canonical (body : list (list field)) :
  load_history_df (Some (Table canonical_columns body))
  = (Some (Table canonical_columns body),
     Ok {| columns := canonical_columns;
           rows := map (map read_field) body |}).
Proof.
  unfold load_history_df. rewrite ensure_canonical.
  destruct body as [|row body]; reflexivity.
Qed.

(** No line of an id-free body reads as the id. *)
Lemma filter_id_free (entry_id : string) (body : list (list field)) :
  id_free entry_id body ->
  filter (fun row => cell_is entry_id (nth 0 row (CFloat nan)))
         (map (map read_field) body) = [].
Proof.
  induction 1 as [|row body Hrow _ IH]; [reflexivity|].
  cbn [map filter]. rewrite IH.
  destruct (cell_is entry_id (nth 0 (map read_field row) (CFloat nan)))
    eqn:E; [|reflexivity].
  exfalso. destruct row as [|f0 row]; [discriminate E|].
  cbn [map nth] in E. apply cell_is_read in E. subst f0.
  apply Hrow. reflexivity.
Qed.

(** Looking an id up in a canonical file: the first line whose id field is
    the text [entry_id], if any. *)
Lemma get_canonical (body : list (list field)) (entry_id : string) :
  snd (get_history_entry (Some (Table canonical_columns body)) entry_id)
  = match filter (fun row => cell_is entry_id (nth 0 row (CFloat nan)))
                 (map (map read_field) body) with
    | [] => Ok None
    | first :: _ => Ok (Some (combine canonical_columns first))
    end.
Proof.
  unfold get_history_entry. rewrite load_canonical. reflexivity.
Qed.

Lemma id_free_resaved (entry_id : string) (body : list (list field)) :
  id_free entry_id body ->
  filter (fun row => cell_is entry_id (nth 0 row (CFloat nan)))
         (map (map read_field)
              (map (map (fun f => write_cell (read_field f))) body)) = [].
Proof.
  intro H.
  replace (map (map read_field)
             (map (map (fun f => write_cell (read_field f))) body))
    with (map (map read_field) body).
  - apply filter_id_free. exact H.
  - rewrite map_map. apply map_ext. intro row. rewrite map_map.
    apply map_ext. intro f. symmetry. apply read_write_read.
Qed.

(** After a save into a canonical file that does not hold the id yet, the
    id finds the record just written, each value after its trip through the
    file. *)
Lemma get_after_save (body : list (list field)) (entry_id ts : string)
    (beta gamma N I0 R0 : float) (days : Z) (signal_type : string)
    (amp freq : float) (step_time : option float)
    (summary_text : option string)
    (peak_I peak_day final_S final_I final_R : option float) :
  full_rows body -> id_free entry_id body ->
  existsb (String.eqb entry_id) na_values = false ->
  let written :=
    entry_record entry_id ts beta gamma N I0 R0 days signal_type amp freq
                 step_time summary_text peak_I peak_day final_S final_I
                 final_R in
  let saved :=
    save_history_entry (Some (Table canonical_columns body)) entry_id ts
      beta gamma N I0 R0 days signal_type amp freq step_time summary_text
      peak_I peak_day final_S final_I final_R in
  snd saved = Ok entry_id
  /\ snd (get_history_entry (fst saved) entry_id)
     = Ok (Some (map (fun kv => (fst kv, reload (snd kv))) written)).
Proof.
  intros Hfull Hfree Hid written saved. subst saved.
  rewrite save_on_canonical by exact Hfull. fold written.
  split; [reflexivity|]. cbn [fst].
  rewrite get_canonical. rewrite map_app, filter_app.
  rewrite (id_free_resaved entry_id body Hfree). cbn [app].
  assert (Er : reload (CStr entry_id) = CStr entry_id).
  { unfold reload, write_cell, read_field. rewrite Hid. reflexivity. }
  assert (Erow : map read_field (map write_cell (map snd written))
                 = CStr entry_id :: map reload (tl (map snd written))).
  { rewrite <- Er. reflexivity. }
  cbn [map]. rewrite Erow. cbn [filter nth]. unfold cell_is.
  rewrite String.eqb_refl. rewrite <- Er at 1. reflexivity.
Qed.

(** What counts as plain text: the signal types, an id and a timestamp as
    the store writes them; not the spelling of a number, of an infinity or
    of a truth value, and not an NA token. *)
Example plain_text_at_work :
  map plain_text ["step"; "sin"; "none"; "id-1"; "2024-01-01T00:00:00";
                  "9f1c2d3e-0000-4000-8000-000000000000"]
  = [true; true; true; true; true; true]
  /\ map plain_text ["12"; "1e5"; "-0.5"; " 7 "; "inf"; "-Infinity"; "True";
                     "nan"; "NA"; ""]
     = [false; false; false; false; false; false; false; false; false;
        false].
Proof. split; reflexivity. Qed.

(** A typed body has full rows. *)
Lemma fields_ok_length (ks : list kind) (r : list field) :
  fields_ok ks r = true -> List.length r = List.length ks.
Proof.
  revert r. induction ks as [|k ks IH]; intros [|f r] H;
    try discriminate H; [reflexivity|].
  cbn [fields_ok] in H. apply andb_prop in H. destruct H as [_ H].
  cbn [List.length]. f_equal. apply IH. exact H.
Qed.

Lemma typed_full (body : list (list field)) :
  typed_body body -> full_rows body.
Proof.
  intro H. unfold typed_body in H. unfold full_rows.
  rewrite Forall_forall in *. intros r Hr.
  exact (fields_ok_length canonical_kinds r (H r Hr)).
Qed.




(** [_ensure_history] is idempotent: after it the file exists, it is either
    the file as it was or the bare canonical header, a second call changes
    nothing (no second header), and a file with a data line is never
    touched. *)
Theorem ensure_history_idempotent (f : fs) (h : list string)
    (row : list field) (body : list (list field)) :
  _ensure_history (_ensure_history f) = _ensure_history f
  /\ (_ensure_history f = f \/ _ensure_history f = Some (to_csv empty_frame))
  /\ _ensure_history f <> None
  /\ _ensure_history (Some (Table h (row :: body)))
     = Some (Table h (row :: body)).
Proof.
  split; [|split; [|split]].
  - destruct f as [c|]; [|reflexivity].
    assert (Hg : _ensure_history (Some c) = Some (to_csv empty_frame)
                 \/ (_ensure_history (Some c) = Some c
                     /\ _ensure_history (Some c) = Some c)).
    { unfold _ensure_history.
      destruct (st_size c <? 200)%nat; [destruct (n_lines c <=? 1)%nat|];
        auto. }
    destruct Hg as [-> | [Hg1 Hg2]]; [reflexivity|].
    rewrite Hg1 at 1. reflexivity.
  - destruct f as [c|]; [|right; reflexivity].
    unfold _ensure_history.
    destruct (st_size c <? 200)%nat; [destruct (n_lines c <=? 1)%nat|]; auto.
  - destruct f as [c|]; [|discriminate].
    unfold _ensure_history.
    destruct (st_size c <? 200)%nat; [destruct (n_lines c <=? 1)%nat|];
      discriminate.
  - unfold _ensure_history.
    destruct (st_size (Table h (row :: body)) <? 200)%nat; reflexivity.
Qed.


Lemma sample_body_full :
  full_rows [sample_line "id-1" "2024-01-01T00:00:00"].
Proof. constructor; [reflexivity | constructor]. Qed.

Lemma sample_body_typed :
  typed_body [sample_line "id-1" "2024-01-01T00:00:00"].
Proof. constructor; [reflexivity | constructor]. Qed.

Lemma sample_body_id_free :
  id_free "id-2" [sample_line "id-1" "2024-01-01T00:00:00"].
Proof. constructor; [discriminate | constructor]. Qed.




(** The lookup is linear: on a canonical file whose lines are typed it
    returns the first line whose id field is the id, whatever follows it,
    with all 18 keys. *)
Theorem lookup_returns_first_match (pre rest : list (list field))
    (row : list field) (entry_id : string) :
  typed_body (pre ++ row :: rest) ->
  id_free entry_id pre ->
  hd_error row = Some (FText entry_id) ->
  plain_text entry_id = true ->
  snd (get_history_entry
         (Some (Table canonical_columns (pre ++ row :: rest))) entry_id)
  = Ok (Some (combine canonical_columns (map read_field row)))
  /\ List.length (combine canonical_columns (map read_field row)) = 18%nat.
Proof.
  intros Htyped Hfree Hrow Hplain.
  pose proof (plain_not_na entry_id Hplain) as Hid.
  assert (Lrow : List.length row = 18%nat).
  { pose proof (typed_full _ Htyped) as Hfull. unfold full_rows in Hfull.
    rewrite Forall_forall in Hfull. apply Hfull.
    apply in_or_app. right. left. reflexivity. }
  split; [|rewrite length_combine, length_map, Lrow; reflexivity].
  rewrite get_canonical.
  rewrite map_app, filter_app, (filter_id_free entry_id pre Hfree).
  cbn [app map filter].
  destruct row as [|f0 row]; [discriminate|].
  injection Hrow as ->. cbn [map nth]. unfold read_field at 1.
  rewrite Hid. unfold cell_is at 1. rewrite String.eqb_refl.
  cbn [read_field]. unfold read_field at 1. rewrite Hid. reflexivity.
Qed.

Lemma lookup_returns_first_match_witness :
  snd (get_history_entry
         (Some (Table canonical_columns
                  ([sample_line "id-1" "2024-01-01T00:00:00"]
                   ++ sample_line "id-2" "2024-01-02T00:00:00"
                   :: [sample_line "id-2" "2024-01-03T00:00:00"]))) "id-2")
  = Ok (Some (combine canonical_columns
                (map read_field (sample_line "id-2" "2024-01-02T00:00:00"))))
  /\ List.length
       (combine canonical_columns
          (map read_field (sample_line "id-2" "2024-01-02T00:00:00")))
     = 18%nat.
Proof.
  refine (lookup_returns_first_match
            [sample_line "id-1" "2024-01-01T00:00:00"]
            [sample_line "id-2" "2024-01-03T00:00:00"]
            (sample_line "id-2" "2024-01-02T00:00:00") "id-2" _ _ _ _).
  - repeat constructor.
  - exact sample_body_id_free.
  - reflexivity.
  - reflexivity.
Defined.

(** An id that no line of a canonical file with typed lines holds is
    reported as not found ([None]), not as an error; so is every id on a
    store that does not exist or is empty. *)
Theorem get_unknown_id_is_none (body : list (list field))
    (entry_id : string) :
  typed_body body ->
  id_free entry_id body ->
  snd (get_history_entry (Some (Table canonical_columns body)) entry_id)
  = Ok None
  /\ snd (get_history_entry None entry_id) = Ok None
  /\ snd (get_history_entry (Some Blank) entry_id) = Ok None.
Proof.
  intros _ Hfree. split; [|split; reflexivity].
  rewrite get_canonical, (filter_id_free entry_id body Hfree). reflexivity.
Qed.

Lemma get_unknown_id_is_none_witness :
  snd (get_history_entry
         (Some (Table canonical_columns
                  [sample_line "id-1" "2024-01-01T00:00:00"])) "id-2")
  = Ok None
  /\ snd (get_history_entry None "id-2") = Ok None
  /\ snd (get_history_entry (Some Blank) "id-2") = Ok None.
Proof.
  refine (get_unknown_id_is_none
            [sample_line "id-1" "2024-01-01T00:00:00"] "id-2" _ _).
  - exact sample_body_typed.
  - exact sample_body_id_free.
Defined.

Lemma column_index_absent (k : string) (cols : list string) :
  ~ In k cols -> column_index k cols = Raise KeyError.
Proof.
  induction cols as [|c cols IH]; intro H; cbn [column_index];
    [reflexivity|].
  destruct (String.eqb_spec k c) as [->|_].
  - exfalso. apply H. left. reflexivity.
  - rewrite IH; [reflexivity|]. intro Hin. apply H. right. exact Hin.
Qed.

Lemma existsb_absent (k : string) (cols : list string) :
  ~ In k cols -> existsb (String.eqb k) cols = false.
Proof.
  intro H. destruct (existsb (String.eqb k) cols) eqn:E; [|reflexivity].
  exfalso. apply existsb_exists in E. destruct E as [c [Hc Ec]].
  apply String.eqb_eq in Ec. subst c. exact (H Hc).
Qed.

(** A file with data lines under a foreign header (at least two columns,
    every line with one field per column): without an [id] column every
    lookup raises [KeyError] (from [df["id"]]); without a [timestamp] column
    the history route shows an empty table and raises nothing. *)
Theorem foreign_header_lookup_raises (strftime : string -> result string)
    (h : list string) (row : list field)
    (body : list (list field)) (entry_id : string) :
  uniform_rows (List.length h) (row :: body) ->
  let f := Some (Table h (row :: body)) in
  (~ In "id" h ->
   snd (get_history_entry f entry_id) = Raise KeyError)
  /\ (~ In "timestamp" h -> snd (history strftime f) = Ok []).
Proof.
  intros [Hw _] f. subst f.
  destruct h as [|h0 h]; [cbn in Hw; lia|].
  assert (El : load_history_df (Some (Table (h0 :: h) (row :: body)))
               = (Some (Table (h0 :: h) (row :: body)),
                  Ok {| columns := h0 :: h;
                        rows := map (map read_field) (row :: body) |})).
  { unfold load_history_df. rewrite ensure_keeps_records. reflexivity. }
  split; intro Habs.
  - unfold get_history_entry. rewrite El. cbn [snd bind columns].
    rewrite (column_index_absent "id" (h0 :: h) Habs). reflexivity.
  - unfold history. rewrite El. cbn [snd bind columns].
    rewrite (existsb_absent "timestamp" (h0 :: h) Habs). reflexivity.
Qed.

(** A file written by another program: a lookup raises, the list is
    empty. *)
Lemma foreign_header_lookup_raises_witness :
  let f := Some (Table ["name"; "value"] [[FText "a"; FInt 1]]) in
  (~ In "id" ["name"; "value"] ->
   snd (get_history_entry f "a") = Raise KeyError)
  /\ (~ In "timestamp" ["name"; "value"] ->
      snd (history (fun s => Ok s) f) = Ok []).
Proof.
  refine (foreign_header_lookup_raises (fun s => Ok s) ["name"; "value"]
            [FText "a"; FInt 1] [] "a" _).
  split; [cbn; lia | repeat constructor].
Defined.

End StoreFacts.

(* ===================================================================== *)
(** ** The history route: order of the list *)
(* ===================================================================== *)

Module RouteFacts.

Import Binary64 FloatFacts History Store HistoryFacts StoreFacts.
Local Open Scope py_scope.

Section Route.

Variable strftime : string -> result string.










End Route.


(** Runs saved within one second are listed in the order of the file. *)
Example history_ties_keep_file_order :
  option_map (map (lookup "id"))
    (match snd (history (fun s => Ok s)
                  (Some (Table canonical_columns
                           [sample_line "id-1" "2024-01-01T00:00:00";
                            sample_line "id-2" "2024-01-01T00:00:00"]))) with
     | Ok table => Some table
     | Raise _ => None
     end)
  = Some [Some (CStr "id-1"); Some (CStr "id-2")].
Proof. vm_compute. reflexivity. Qed.

(** The order at work: three runs stored out of order are listed by date,
    latest first. *)
Example history_order_at_work :
  option_map (map timestamp_of)
    (match snd (history (fun s => Ok s)
                  (Some (Table canonical_columns
                           [sample_line "id-1" "2024-01-01T00:00:00";
                            sample_line "id-3" "2024-01-03T00:00:00";
                            sample_line "id-2" "2024-01-02T00:00:00"]))) with
     | Ok table => Some table
     | Raise _ => None
     end)
  = Some ["2024-01-03T00:00:00"; "2024-01-02T00:00:00";
          "2024-01-01T00:00:00"].
Proof. vm_compute. reflexivity. Qed.

End RouteFacts.

(* ===================================================================== *)
(** ** The detail route: what it reads from a record *)
(* ===================================================================== *)

Module DetailFacts.

Import Binary64 FloatFacts Summary History Store App Run.
Import SignalFacts SignalEdgeFacts SummaryFacts HistoryFacts StoreFacts.
Local Open Scope float_scope.
Local Open Scope py_scope.

(** What the detail route reads from a record as the store returns it. *)
Lemma detail_params_reloaded (entry_id ts : string)
    (beta gamma N I0 R0 : float) (days : Z) (signal_type : string)
    (amp freq : float) (step_time : option float)
    (summary_text : option string)
    (peak_I peak_day final_S final_I final_R : option float) :
  detail_params
    (map (fun kv => (fst kv, reload (snd kv)))
         (entry_record entry_id ts beta gamma N I0 R0 days signal_type amp
            freq step_time summary_text peak_I peak_day final_S final_I
            final_R))
  = Ok {| d_beta := beta; d_gamma := gamma; d_N := N; d_I0 := I0;
          d_R0 := R0; d_days := days;
          d_signal := reload (CStr signal_type);
          d_amp := amp; d_freq := freq;
          d_step_time :=
            Some (match step_time with Some x => x | None => nan end) |}.
Proof.
  unfold entry_record. cbn [map fst snd].
  rewrite !reload_float.
  unfold detail_params, getitem, get, ne_empty.
  cbn [lookup String.eqb Ascii.eqb Bool.eqb bind py_float py_int_cell].
  destruct step_time as [x|].
  - rewrite reload_float. reflexivity.
  - reflexivity.
Qed.


(** A record stored without statistics (the defaults of
    [save_history_entry]) cannot be displayed: its statistics read back as
    NaN, pass the test for a set value, and [int] of the first of them
    raises [ValueError]. *)
Theorem detail_rejects_record_without_statistics
    (body : list (list field)) (entry_id ts : string)
    (beta gamma N I0 R0 : float) (days : Z) (signal_type : string)
    (amp freq : float) (step_time : option float)
    (summary_text : option string)
    (peak_day final_S final_I final_R : option float) :
  full_rows body -> id_free entry_id body ->
  existsb (String.eqb entry_id) na_values = false ->
  finite N = true -> finite I0 = true -> finite R0 = true ->
  let saved :=
    save_history_entry (Some (Table canonical_columns body)) entry_id ts
      beta gamma N I0 R0 days signal_type amp freq step_time summary_text
      None peak_day final_S final_I final_R in
  exists entry args,
    snd (get_history_entry (fst saved) entry_id) = Ok (Some entry)
    /\ lookup "peak_I" entry = Some (CFloat nan)
    /\ detail_params entry = Ok args
    /\ display_entry_numbers args entry = Raise ValueError.
Proof.
  intros Hfull Hfree Hid FN FI0 FR0 saved.
  destruct (get_after_save body entry_id ts beta gamma N I0 R0 days
              signal_type amp freq step_time summary_text None peak_day
              final_S final_I final_R Hfull Hfree Hid) as [_ Eget].
  fold saved in Eget.
  eexists. eexists. split; [exact Eget|].
  split; [reflexivity|].
  split; [apply detail_params_reloaded|].
  unfold display_entry_numbers. cbn [d_N d_I0 d_R0].
  destruct (py_int_finite N FN) as [n ->].
  destruct (py_int_finite I0 FI0) as [i0 ->].
  destruct (py_int_finite R0 FR0) as [r0 ->].
  reflexivity.
Qed.

Lemma detail_rejects_record_without_statistics_witness :
  let saved :=
    save_history_entry
      (Some (Table canonical_columns
               [sample_line "id-1" "2024-01-01T00:00:00"]))
      "id-2" "2024-01-02T00:00:00" 0.2 0.1 500 5 0 30 "none" 0.5 1 None
      None None None None None None in
  exists entry args,
    snd (get_history_entry (fst saved) "id-2") = Ok (Some entry)
    /\ lookup "peak_I" entry = Some (CFloat nan)
    /\ detail_params entry = Ok args
    /\ display_entry_numbers args entry = Raise ValueError.
Proof.
  refine (detail_rejects_record_without_statistics
            [sample_line "id-1" "2024-01-01T00:00:00"] "id-2"
            "2024-01-02T00:00:00" 0.2 0.1 500 5 0 30 "none" 0.5 1 None
            None None None None None _ _ _ _ _ _).
  - exact sample_body_full.
  - exact sample_body_id_free.
  - reflexivity.
  - reflexivity.
  - reflexivity.
  - reflexivity.
Defined.


End DetailFacts.

(* ===================================================================== *)
(** ** Run and save *)
(* ===================================================================== *)

Module RunFacts.

Import Binary64 FloatFacts Summary History Store App Run.
Import SignalFacts SummaryFacts NarrativeFacts HistoryFacts StoreFacts.
Import DetailFacts.
Local Open Scope float_scope.
Local Open Scope py_scope.

(** The floor of the plot range is a number and is not negative. *)
Lemma py_max_zero_floor {M : Libm} (x : float) :
  (0 <=? py_max 0 x) = true.
Proof.
  unfold py_max. change (lt 0 x) with (0 <? x).
  destruct (0 <? x) eqn:E; [|reflexivity].
  destruct (ltb_not_nan _ _ E) as [_ Hx].
  apply ltb_leb; [reflexivity | exact Hx | exact E].
Qed.

(** A zero, scaled, is not above zero. *)
Lemma zero_scaled_not_positive (x : float) :
  (x =? 0) = true -> (0 <? x * 0.95) = false.
Proof.
  rewrite FloatAxioms.eqb_spec, ltb_spec, mul_spec.
  replace (Prim2SF 0) with (S754_zero false) by reflexivity.
  destruct (Prim2SF x) as [[]|[]| |[] m e]; cbn; intro H;
    try discriminate H; destruct (Prim2SF 0.95) as [[]|[]| |[] m' e'] eqn:E;
    try reflexivity; vm_compute in E; discriminate E.
Qed.

(** A file that cannot be read after [_ensure_history] is the file as it
    was. *)
Lemma ensure_unreadable (f : fs) (c : file) (e : exn) :
  _ensure_history f = Some c -> read_csv c = Raise e -> f = Some c.
Proof.
  intros He Hr. destruct f as [c0|].
  - unfold _ensure_history in He.
    destruct (st_size c0 <? 200)%nat; [destruct (n_lines c0 <=? 1)%nat|];
      injection He as <-; try reflexivity; discriminate Hr.
  - injection He as <-. discriminate Hr.
Qed.

(** A save that raises leaves the store as it was. *)
Lemma save_raises_unchanged (f : fs) (entry_id ts : string)
    (beta gamma N I0 R0 : float) (days : Z) (signal_type : string)
    (amp freq : float) (step_time : option float)
    (summary_text : option string)
    (peak_I peak_day final_S final_I final_R : option float) (e : exn) :
  snd (save_history_entry f entry_id ts beta gamma N I0 R0 days signal_type
         amp freq step_time summary_text peak_I peak_day final_S final_I
         final_R) = Raise e ->
  fst (save_history_entry f entry_id ts beta gamma N I0 R0 days signal_type
         amp freq step_time summary_text peak_I peak_day final_S final_I
         final_R) = f.
Proof.
  unfold save_history_entry.
  destruct (_ensure_history f) as [c|] eqn:He.
  - destruct (read_csv c) as [df|e'] eqn:Hr; cbn [fst snd].
    + discriminate.
    + intros _. symmetry. exact (ensure_unreadable f c e' He Hr).
  - exfalso. destruct f as [c0|]; [|discriminate He].
    unfold _ensure_history in He.
    destruct (st_size c0 <? 200)%nat; [destruct (n_lines c0 <=? 1)%nat|];
      discriminate He.
Qed.

(** [int] and [round] raise on the same values. *)
Lemma py_round_int (x : float) (z : Z) :
  py_round x = Ok z -> exists z', py_int x = Ok z'.
Proof.
  unfold py_round, py_int.
  destruct (Prim2SF x) as [[]|[]| |[] m e]; intro H;
    try discriminate H; eauto.
Qed.

(** A summary that was made: the time series is not empty, and [int] of
    the population sizes and of the statistics that the text rounds are
    numbers. *)
Lemma summary_made (beta gamma N I0 R0 : float) (days : Z)
    (t S I R u : list float) (s : string) (txt : line) (st : stats) :
  generate_summary beta gamma N I0 R0 days t S I R u s = Ok (txt, st) ->
  t <> []
  /\ (exists n, py_int N = Ok n)
  /\ (exists n, py_int I0 = Ok n)
  /\ (exists n, py_int R0 = Ok n)
  /\ (exists n, py_int (peak_I st) = Ok n)
  /\ (exists n, py_int (final_S st) = Ok n)
  /\ (exists n, py_int (final_I st) = Ok n)
  /\ (exists n, py_int (final_R st) = Ok n).
Proof.
  unfold generate_summary. intro H.
  destruct (basic_stats t S I R) as [st'|e] eqn:Eb; [|discriminate H].
  cbn [bind] in H.
  destruct (summary_lines beta gamma N I0 R0 days st' u s) as [ls|] eqn:El;
    [|discriminate H].
  cbn [bind] in H. injection H as _ <-. split.
  - intros ->. unfold basic_stats in Eb.
    destruct (np_nanargmax I) as [i|]; [|discriminate Eb]. cbn [bind] in Eb.
    destruct (item I i); [|discriminate Eb]. cbn [bind] in Eb.
    unfold item in Eb. destruct i; discriminate Eb.
  - unfold summary_lines in El.
    destruct (py_int N) as [n|]; [|discriminate El]. cbn [bind] in El.
    destruct (py_int I0) as [i0|]; [|discriminate El]. cbn [bind] in El.
    destruct (py_int R0) as [r0|]; [|discriminate El]. cbn [bind] in El.
    destruct (py_round (peak_I st')) as [p|] eqn:Ep; [|discriminate El].
    cbn [bind] in El.
    destruct (py_round (final_S st')) as [fS|] eqn:ES; [|discriminate El].
    cbn [bind] in El.
    destruct (py_round (final_I st')) as [fI|] eqn:EI; [|discriminate El].
    cbn [bind] in El.
    destruct (py_round (final_R st')) as [fR|] eqn:ER; [|discriminate El].
    repeat split; eauto using py_round_int.
Qed.

Section Machine.

Context {M : Libm}.

Variable odeint : (state (F := float) -> float -> result (state (F := float)))
                  -> state (F := float) -> list float
                  -> result (list (state (F := float))).
Variable render : line -> string.

(** The control series of a simulation has one value per time. *)
Lemma simulate_signal_length (beta gamma N I0 R0 : float) (days : Z)
    (npoints : option nat) (s : string) (amp freq : float)
    (st : option float) (t S I R u : list float) :
  simulate_sir odeint beta gamma N I0 R0 days npoints s amp freq st
  = Ok (t, S, I, R, u) ->
  List.length u = List.length t.
Proof.
  unfold simulate_sir. intro H.
  destruct (np_of_int days) as [stop|]; [|discriminate H].
  cbn [bind] in H.
  match type of H with
  | context [odeint ?f ?y ?tt] => destruct (odeint f y tt); [|discriminate H]
  end.
  cbn [bind] in H.
  match type of H with
  | context [control_signal ?tt s amp freq st] =>
      destruct (control_signal tt s amp freq st) as [u'|] eqn:Eu;
        [|discriminate H]
  end.
  cbn [bind] in H. injection H as <- _ _ _ <-.
  exact (control_signal_length _ _ _ _ _ _ Eu).
Qed.

(** After a summary was made of a simulation, the plot is made too. *)
Lemma plot_after_summary (N : float) (t u : list float) :
  t <> [] -> List.length u = List.length t ->
  (exists n, py_int N = Ok n) ->
  exists lo hi, plot_sir u N = Ok (lo, hi) /\ (0 <=? lo) = true.
Proof.
  intros Ht Lu [n En]. destruct u as [|u0 u].
  - destruct t; [congruence | discriminate Lu].
  - unfold plot_sir. cbn [np_min np_max bind]. rewrite En. cbn [bind].
    do 2 eexists. split; [reflexivity|]. apply py_max_zero_floor.
Qed.

(** A run that fails writes nothing: whenever [run_simulation_and_save]
    raises, whether in the simulation, in the summary or in the store, the
    history file is as it was before the call.  (Once the record is written
    nothing that follows can raise: the plot is made of the series the
    summary was made of.) *)
Theorem failed_run_leaves_store (f : fs) (entry_id ts : string)
    (beta gamma N I0 R0 : float) (days : Z) (signal_type : string)
    (amp freq : float) (step_time : option float) (npoints : option nat)
    (e : exn) :
  snd (run_simulation_and_save odeint render f entry_id ts beta gamma N I0
         R0 days signal_type amp freq step_time npoints) = Raise e ->
  fst (run_simulation_and_save odeint render f entry_id ts beta gamma N I0
         R0 days signal_type amp freq step_time npoints) = f.
Proof.
  unfold run_simulation_and_save.
  destruct (simulate_sir odeint beta gamma N I0 R0 days npoints signal_type
              amp freq step_time) as [[[[[t S_] I_] R_] u]|e0] eqn:Esim;
    [|reflexivity].
  destruct (generate_summary beta gamma N I0 R0 days t S_ I_ R_ u
              signal_type) as [[txt st]|e1] eqn:Esum; [|reflexivity].
  destruct (summary_made _ _ _ _ _ _ _ _ _ _ _ _ _ _ Esum) as [Ht [HN _]].
  pose proof (simulate_signal_length _ _ _ _ _ _ _ _ _ _ _ _ _ _ _ _ Esim)
    as Lu.
  destruct (plot_after_summary N t u Ht Lu HN) as [lo [hi [Ep _]]].
  pose proof (save_raises_unchanged f entry_id ts beta gamma N I0 R0 days
                signal_type amp freq step_time (Some (render txt))
                (Some (peak_I st)) (Some (peak_day st)) (Some (final_S st))
                (Some (final_I st)) (Some (final_R st))) as Hsave.
  destruct (save_history_entry f entry_id ts beta gamma N I0 R0 days
              signal_type amp freq step_time (Some (render txt))
              (Some (peak_I st)) (Some (peak_day st)) (Some (final_S st))
              (Some (final_I st)) (Some (final_R st))) as [f' [id|e2]].
  - cbn [fst snd bind]. rewrite Ep. cbn [bind]. discriminate.
  - cbn [fst snd bind]. intros _. exact (Hsave e2 eq_refl).
Qed.




(** The y-range [plot_sir] gives the control panel: the floor is a number
    and never negative, also when the signal holds NaN or negative values
    (it is [u.min() * 0.95] when that is above zero and 0 otherwise, so it
    does not depend on which zero [u.min()] is); an empty signal raises
    [ValueError]; a population that is NaN or infinite raises from [int(N)]
    in the title, after the range was taken.  (Nothing is said on the
    ceiling, whose sign at zero depends on which zero [u.max()] is.) *)
Theorem plot_range_floor (u : list float) (N : float)
    (range : float * float) :
  plot_sir u N = Ok range ->
  (0 <=? fst range) = true
  /\ (exists umin,
        np_min u = Ok umin
        /\ fst range = (if 0 <? umin * 0.95 then umin * 0.95 else 0)
        /\ ((umin =? 0) = true -> fst range = 0))
  /\ finite N = true
  /\ plot_sir [] N = Raise ValueError.
Proof.
  unfold plot_sir. intro H.
  destruct u as [|u0 u]; [discriminate H|].
  cbn [np_min np_max bind] in H.
  destruct (py_int N) as [n|] eqn:En; [|discriminate H].
  cbn [bind] in H. injection H as <-. cbn [fst].
  split; [apply py_max_zero_floor|]. split; [|split; [|reflexivity]].
  - eexists. split; [reflexivity|]. split; [reflexivity|].
    intro Hz. unfold py_max.
    match goal with
    | |- (if ?c then _ else _) = _ => replace c with false; [reflexivity|]
    end.
    symmetry. exact (zero_scaled_not_positive _ Hz).
  - unfold py_int in En. unfold finite, is_finite, is_nan, is_infinity.
    rewrite !FloatAxioms.eqb_spec, abs_spec.
    replace (Prim2SF infinity) with (S754_infinity false) by reflexivity.
    destruct (Prim2SF N) as [[]|[]| |[] m e]; try discriminate En;
      cbn; rewrite ?Z.compare_refl, ?Pos.compare_cont_refl; reflexivity.
Qed.

End Machine.

Section Examples.

#[local] Existing Instance ref_libm.

Lemma failed_run_leaves_store_witness :
  fst (run_simulation_and_save euler_odeint (fun _ => "text") None "id-1"
         "2024-01-01T00:00:00" 0.3 0.1 nan 10 0 10 "none" 0.5 1 None
         (Some 3%nat)) = None.
Proof.
  refine (failed_run_leaves_store euler_odeint (fun _ => "text") None "id-1"
            "2024-01-01T00:00:00" 0.3 0.1 nan 10 0 10 "none" 0.5 1 None
            (Some 3%nat) ValueError _).
  vm_compute. reflexivity.
Defined.



Lemma plot_range_floor_witness :
  (0 <=? fst (0.5 * 0.95, 1.5 * 1.05)) = true
  /\ (exists umin,
        np_min [1; 0.5; 1.5] = Ok umin
        /\ fst (0.5 * 0.95, 1.5 * 1.05)
           = (if 0 <? umin * 0.95 then umin * 0.95 else 0)
        /\ ((umin =? 0) = true -> fst (0.5 * 0.95, 1.5 * 1.05) = 0))
  /\ finite 1000 = true
  /\ plot_sir [] 1000 = Raise ValueError.
Proof.
  refine (plot_range_floor [1; 0.5; 1.5] 1000 (0.5 * 0.95, 1.5 * 1.05) _).
  vm_compute. reflexivity.
Defined.

(** A signal that dips below zero, or is NaN throughout: the floor is 0. *)
Example plot_floor_at_work :
  plot_sir [1; -0.5; 1.5] 1000 = Ok (0, 1.5 * 1.05)
  /\ plot_sir [nan; nan] 1000 = Ok (0, nan).
Proof. split; vm_compute; reflexivity. Qed.

End Examples.

End RunFacts.
